(** * Block devices of the PSP emulator core: a shallow embedding

    Embedding of [Core/FileSystems/BlockDevices.cpp]: the factory
    [constructBlockDevice] and the three devices [FileBlockDevice],
    [CISOFileBlockDevice] and [NPDRMDemoBlockDevice], each with its
    constructor and its [ReadBlock].

    Conventions.
    - C++ integers are [Z] with their wrap-around written out ([u32], [u64],
      [s32], [off_t]).  Signed overflow, shifts by the word size or more,
      division by zero and reads outside an array are undefined in the source;
      the model gives them the value the definition below computes and the
      theorems that depend on such a value carry the bound as a hypothesis.
    - Bytes are [Byte.byte]; a buffer is a [list byte].  A call that receives
      [outPtr] takes the buffer's previous content and returns its new content.
    - A [FILE] is the content of the resource and the stream position.
    - Memory that the source reads before writing it (stack arrays, [new]
      without initialiser) takes its content from a [Uninit] record.
    - zlib, the KIRK engine and the LZRC decompressor are external: they are
      the fields of the classes [Zlib], [Kirk] and [Lzrc].
    - The build modelled is the one for a little-endian host that is not
      Android ([COMMON_LITTLE_ENDIAN], no [ANDROID]); log calls are left
      out. *)

From Stdlib Require Import ZArith List Bool Lia Strings.Byte.
From Stdlib Require String.
Import ListNotations.
Local Open Scope Z_scope.

(** ** Machine integers *)

Definition u32 (x : Z) : Z := x mod 2 ^ 32.
Definition u64 (x : Z) : Z := x mod 2 ^ 64.
Definition s32 (x : Z) : Z := (x + 2 ^ 31) mod 2 ^ 32 - 2 ^ 31.
(** [off_t] is the signed 64-bit file offset. *)
Definition off_t (x : Z) : Z := (x + 2 ^ 63) mod 2 ^ 64 - 2 ^ 63.
(** [size_t] is the unsigned 64-bit size. *)
Definition size_t (x : Z) : Z := x mod 2 ^ 64.

(** ** Bytes and buffers *)

Definition byte_val (b : byte) : Z := Z.of_N (Byte.to_N b).

Definition byte_of_Z (z : Z) : byte :=
  match Byte.of_N (Z.to_N (z mod 256)) with
  | Some b => b
  | None => x00
  end.

(** Little-endian value of the first [n] bytes of [l]. *)
Fixpoint le_word (n : nat) (l : list byte) : Z :=
  match n with
  | O => 0
  | S k =>
      match l with
      | [] => 0
      | b :: r => byte_val b + 256 * le_word k r
      end
  end.

(** [*(u32* )(buf + off)] on a little-endian host. *)
Definition load32 (buf : list byte) (off : Z) : Z :=
  le_word 4 (skipn (Z.to_nat off) buf).

(** The little-endian words of a byte array, [n] of them. *)
Fixpoint words_of (n : nat) (l : list byte) : list Z :=
  match n with
  | O => []
  | S k => le_word 4 l :: words_of k (skipn 4 l)
  end.

(** [n] bytes, the first ones from [l], zero after them. *)
Definition resize (n : nat) (l : list byte) : list byte :=
  firstn n (l ++ repeat x00 n).

(** [n] bytes of not yet initialised memory, with content [garbage]. *)
Definition alloc (garbage : list byte) (n : Z) : list byte :=
  resize (Z.to_nat n) garbage.

(** The [n] bytes at [buf + off]. *)
Definition slice (buf : list byte) (off : Z) (n : nat) : list byte :=
  resize n (skipn (Z.to_nat off) buf).

(** Writing [data] at the start of [dst]: [memcpy(dst, data, |data|)], and
    what [fread] and a decompressor do to their destination. *)
Definition overwrite (dst data : list byte) : list byte :=
  data ++ skipn (length data) dst.

(** Writing [data] at [dst + off]. *)
Definition overwrite_at (dst : list byte) (off : nat) (data : list byte)
  : list byte :=
  firstn off dst ++ overwrite (skipn off dst) data.

(** [memset(dst, 0, n)]. *)
Definition memset0 (dst : list byte) (n : nat) : list byte :=
  overwrite dst (repeat x00 n).

(** [memcmp(a, b, 4) == 0] for two arrays of at least four bytes. *)
Definition memcmp4_eq (a b : list byte) : bool :=
  if list_eq_dec Byte.byte_eq_dec (firstn 4 a) (firstn 4 b) then true else false.

(** ** C streams *)

Record FILE := mkFILE { contents : list byte; fpos : Z }.

(** [fseek]/[fseeko] with [SEEK_SET]: a negative offset is refused and the
    position stays. *)
Definition fseek_set (f : FILE) (off : Z) : FILE :=
  if off <? 0 then f else mkFILE (contents f) off.

Definition fseek_end (f : FILE) : FILE :=
  mkFILE (contents f) (Z.of_nat (length (contents f))).

Definition ftello (f : FILE) : Z := fpos f.

(** [fread(ptr, 1, n, f)]: the bytes read (at most [n], fewer at the end of
    the resource) and the stream after them. *)
Definition fread (n : Z) (f : FILE) : list byte * FILE :=
  let got := firstn (Z.to_nat n) (skipn (Z.to_nat (fpos f)) (contents f)) in
  (got, mkFILE (contents f) (fpos f + Z.of_nat (length got))).

(** [fread(ptr, size, nmemb, f)]: the bytes read, the number of complete
    items, the stream. *)
Definition fread_items (size nmemb : Z) (f : FILE) : list byte * Z * FILE :=
  let '(got, f') := fread (size * nmemb) f in
  (got, Z.of_nat (length got) / size, f').

(** Modelled from the spec: [BlockDevices.h], which declares the devices'
    members and [GetBlockSize], is not among the sources; the block size is
    the constant 2048 for every variant. *)
Definition GetBlockSize : Z := 2048.

Definition BLOCK : nat := 2048.

(** What a call does to the output buffer, as a function from the buffer's
    content before the call to its content after it.  The call writes the
    whole block when the 2048 bytes it leaves do not depend on what was there
    before; it leaves the buffer untouched when the content stays. *)
Definition fully_written (rd : list byte -> list byte) : Prop :=
  exists data, length data = BLOCK /\ forall out, rd out = data ++ skipn BLOCK out.

Definition untouched (rd : list byte -> list byte) : Prop :=
  forall out, rd out = out.

(** ** FileBlockDevice: the plain pass-through device *)

Module FileBlockDevice.

Record t := mk { f : FILE; filesize : Z }.

Definition new (file : FILE) : t :=
  let f1 := fseek_end file in
  let size := ftello f1 in
  mk (fseek_set f1 0) size.

(** The size recorded at construction is the size of the resource. *)
Definition wf (d : t) : Prop :=
  filesize d = Z.of_nat (length (contents (f d))).

(** Modelled from the spec: [GetNumBlocks] is declared in [BlockDevices.h],
    which is not among the sources; the block count is derived from the
    resource's size, in whole blocks. *)
Definition GetNumBlocks (d : t) : Z := filesize d / GetBlockSize.

Definition ReadBlock (d : t) (blockNumber : Z) (outPtr : list byte)
  : bool * list byte * t :=
  let f1 := fseek_set (f d) (off_t (u64 (u64 blockNumber * u64 GetBlockSize))) in
  let '(got, f2) := fread 2048 f1 in
  (true, overwrite outPtr got, mk f2 (filesize d)).

End FileBlockDevice.

(** ** Memory read before it is written *)

(** The content found in each region the source reads without having
    initialised it: the factory's [buffer], the CISO header and index, the
    two CISO buffers, the NPDRM [psarOffset] member, header, table and the two
    unit buffers. *)
Record Uninit := mkUninit {
  u_buffer : list byte;
  u_hdr : list byte;
  u_index : list byte;
  u_readBuffer : list byte;
  u_zlibBuffer : list byte;
  u_psarOffset : list byte;
  u_np_header : list byte;
  u_table : list byte;
  u_blockBuf : list byte;
  u_tempBuf : list byte
}.

(** ** External libraries *)

(** zlib.  [inflateInit2] is the return code of [inflateInit2(&z, -15)];
    [inflate input avail_out] is [inflate(&z, Z_FINISH)] on [avail_in] bytes
    of input: its return code and the bytes it produced. *)
Class Zlib := {
  inflateInit2 : Z;
  inflate : list byte -> Z -> Z * list byte
}.

Definition Z_OK : Z := 0.
Definition Z_STREAM_END : Z := 1.

(** The KIRK engine (libkirk's amctrl).  [bbmac_getkey data bbmac] is the key
    extracted after [sceDrmBBMacInit(&mkey, 3)] and an update over [data];
    [bbcipher hkey vkey seed data] is [data] after
    [sceDrmBBCipherInit(&ckey, 1, 2, hkey, vkey, seed)], one update over it
    and [sceDrmBBCipherFinal]. *)
Class Kirk := {
  bbmac_getkey : list byte -> list byte -> list byte;
  bbcipher : list byte -> list byte -> Z -> list byte -> list byte
}.

(** [lzrc_decompress out_len input]: the return value and the bytes written to
    [out]. *)
Class Lzrc := {
  lzrc_decompress : Z -> list byte -> Z * list byte
}.

(** ** CISOFileBlockDevice: the compressed frame device *)

Module CISOFileBlockDevice.

(** The members of the class, and [inflateCalls], instrumentation that the
    source does not have: the number of calls of [inflate] so far. *)
Record t := mk {
  f : FILE;
  index : list Z;
  readBuffer : list byte;
  zlibBuffer : list byte;
  zlibBufferFrame : Z;
  indexShift : Z;
  blockShift : Z;
  frameSize : Z;
  numBlocks : Z;
  numFrames : Z;
  inflateCalls : nat
}.

(** [for (u32 i = frameSize; i > 0x800; i >>= 1) ++blockShift;], which a
    32-bit [i] leaves after at most 32 rounds. *)
Fixpoint blockShift_loop (fuel : nat) (i : Z) (blockShift : Z) : Z :=
  match fuel with
  | O => blockShift
  | S k =>
      if 0x800 <? i
      then blockShift_loop k (Z.shiftr i 1) (blockShift + 1)
      else blockShift
  end.

Section WithZlib.
Context {zlib : Zlib}.

Definition new (u : Uninit) (file : FILE) : t :=
  let '(got, readSize, f1) := fread_items 24 1 file in
  let hdr := overwrite (alloc (u_hdr u) 24) got in
  let frameSize := load32 hdr 0x10 in
  let blockShift := blockShift_loop 32 frameSize 0 in
  let indexShift := le_word 1 (skipn 0x15 hdr) in
  let totalSize := le_word 8 (skipn 8 hdr) in
  let numFrames := u32 (u64 (totalSize + frameSize - 1) / frameSize) in
  let numBlocks := u32 (totalSize / GetBlockSize) in
  let bufSize := u32 (frameSize + s32 (Z.shiftl 1 indexShift)) in
  let readBuffer := alloc (u_readBuffer u) bufSize in
  let zlibBuffer := alloc (u_zlibBuffer u) bufSize in
  let zlibBufferFrame := numFrames in
  let indexSize := u32 (numFrames + 1) in
  let '(igot, icount, f2) := fread_items 4 indexSize f1 in
  let raw := overwrite (alloc (u_index u) (4 * indexSize)) igot in
  let index :=
    if icount =? indexSize
    then words_of (Z.to_nat indexSize) raw
    else repeat 0 (Z.to_nat indexSize) in
  mk f2 index readBuffer zlibBuffer zlibBufferFrame indexShift blockShift
     frameSize numBlocks numFrames 0.

Definition GetNumBlocks (d : t) : Z := numBlocks d.

(** [index[i]]. *)
Definition index_at (d : t) (i : Z) : Z := nth (Z.to_nat i) (index d) 0.

(** The byte offset of the block inside its frame. *)
Definition compressedOffset (d : t) (blockNumber : Z) : Z :=
  u32 (Z.land blockNumber (s32 (Z.shiftl 1 (blockShift d)) - 1) * GetBlockSize).

Definition ReadBlock (d : t) (blockNumber : Z) (outPtr : list byte)
  : bool * list byte * t :=
  if numBlocks d <=? u32 blockNumber then
    (false, memset0 outPtr BLOCK, d)
  else
    let frameNumber := u32 (Z.shiftr blockNumber (blockShift d)) in
    let idx := index_at d frameNumber in
    let indexPos := Z.land idx 0x7FFFFFFF in
    let nextIndexPos := Z.land (index_at d (u32 (frameNumber + 1))) 0x7FFFFFFF in
    let compressedReadPos := u64 (Z.shiftl indexPos (indexShift d)) in
    let compressedReadEnd := u64 (Z.shiftl nextIndexPos (indexShift d)) in
    let compressedReadSize := size_t (compressedReadEnd - compressedReadPos) in
    let compressedOffset := compressedOffset d blockNumber in
    let plain := s32 (Z.land idx 0x80000000) in
    if negb (plain =? 0) then
      let f1 := fseek_set (f d) (off_t (u64 (compressedReadPos + compressedOffset))) in
      let '(got, f2) := fread GetBlockSize f1 in
      let readSize := s32 (u32 (Z.of_nat (length got))) in
      let out1 := overwrite outPtr got in
      let out2 :=
        if readSize <? GetBlockSize
        then overwrite_at out1 (Z.to_nat readSize)
               (repeat x00 (Z.to_nat (GetBlockSize - readSize)))
        else out1 in
      (true, out2,
       mk f2 (index d) (readBuffer d) (zlibBuffer d) (zlibBufferFrame d)
          (indexShift d) (blockShift d) (frameSize d) (numBlocks d)
          (numFrames d) (inflateCalls d))
    else if zlibBufferFrame d =? frameNumber then
      (true, overwrite outPtr (slice (zlibBuffer d) compressedOffset BLOCK), d)
    else
      let f1 := fseek_set (f d) (off_t compressedReadPos) in
      let '(got, f2) := fread compressedReadSize f1 in
      let readSize := u32 (Z.of_nat (length got)) in
      let readBuffer1 := overwrite (readBuffer d) got in
      if negb (inflateInit2 =? Z_OK) then
        (false, outPtr,
         mk f2 (index d) readBuffer1 (zlibBuffer d) (zlibBufferFrame d)
            (indexShift d) (blockShift d) (frameSize d) (numBlocks d)
            (numFrames d) (inflateCalls d))
      else
        let direct := frameSize d =? GetBlockSize in
        let '(status, produced0) :=
          inflate (firstn (Z.to_nat readSize) readBuffer1) (frameSize d) in
        let produced := firstn (Z.to_nat (frameSize d)) produced0 in
        let total_out := Z.of_nat (length produced) in
        let out1 := if direct then overwrite outPtr produced else outPtr in
        let zlibBuffer1 :=
          if direct then zlibBuffer d else overwrite (zlibBuffer d) produced in
        let d1 frame :=
          mk f2 (index d) readBuffer1 zlibBuffer1 frame
             (indexShift d) (blockShift d) (frameSize d) (numBlocks d)
             (numFrames d) (S (inflateCalls d)) in
        if negb (status =? Z_STREAM_END) then
          (false, memset0 out1 BLOCK, d1 (zlibBufferFrame d))
        else if negb (total_out =? frameSize d) then
          (false, memset0 out1 BLOCK, d1 (zlibBufferFrame d))
        else if negb direct then
          (true, overwrite out1 (slice zlibBuffer1 compressedOffset BLOCK),
           d1 frameNumber)
        else
          (true, out1, d1 (zlibBufferFrame d)).

(** The read gets as far as [inflateInit2]: the block is in range, its
    frame is compressed and is not the cached one. *)
Definition reaches_inflateInit2 (d : t) (blockNumber : Z) : bool :=
  let frameNumber := u32 (Z.shiftr blockNumber (blockShift d)) in
  negb (numBlocks d <=? u32 blockNumber)
  && (s32 (Z.land (index_at d frameNumber) 0x80000000) =? 0)
  && negb (zlibBufferFrame d =? frameNumber).

(** A caller reading the blocks of [blocks] one after the other into the
    same buffer. *)
Fixpoint read_blocks (d : t) (blocks : list Z) (outPtr : list byte)
  : list byte * t :=
  match blocks with
  | [] => (outPtr, d)
  | b :: rest =>
      let '(_, out, d') := ReadBlock d b outPtr in
      read_blocks d' rest out
  end.

(** The block numbers of frame [frameNumber], in increasing order. *)
Definition frame_blocks (d : t) (frameNumber : Z) : list Z :=
  map (fun k => frameNumber * 2 ^ blockShift d + Z.of_nat k)
      (seq 0 (Z.to_nat (2 ^ blockShift d))).

(** The bytes that the last branch of [ReadBlock] hands to [inflate] for
    frame [frameNumber], once it has moved the stream to the frame. *)
Definition frame_input (d : t) (frameNumber : Z) : list byte :=
  let indexPos := Z.land (index_at d frameNumber) 0x7FFFFFFF in
  let nextIndexPos := Z.land (index_at d (u32 (frameNumber + 1))) 0x7FFFFFFF in
  let compressedReadPos := u64 (Z.shiftl indexPos (indexShift d)) in
  let compressedReadEnd := u64 (Z.shiftl nextIndexPos (indexShift d)) in
  let compressedReadSize := size_t (compressedReadEnd - compressedReadPos) in
  let got := fst (fread compressedReadSize (mkFILE (contents (f d)) compressedReadPos)) in
  firstn (Z.to_nat (u32 (Z.of_nat (length got)))) got.

(** Frame [frameNumber] is well-formed: its position is a file offset and
    [inflate] ends its stream with [frameSize] bytes produced. *)
Definition frame_decodes (d : t) (frameNumber : Z) : bool :=
  let indexPos := Z.land (index_at d frameNumber) 0x7FFFFFFF in
  let r := inflate (frame_input d frameNumber) (frameSize d) in
  (u64 (Z.shiftl indexPos (indexShift d)) <? 2 ^ 63)
  && (fst r =? Z_STREAM_END)
  && (Z.of_nat (length (firstn (Z.to_nat (frameSize d)) (snd r))) =? frameSize d).

(** Two states of a device over the same image. *)
Definition same_image (d d' : t) : Prop :=
  contents (f d') = contents (f d) /\ index d' = index d /\
  indexShift d' = indexShift d /\ blockShift d' = blockShift d /\
  frameSize d' = frameSize d /\ numBlocks d' = numBlocks d.

(** [hdr.total_bytes], as the constructor reads it. *)
Definition header_total_bytes (u : Uninit) (file : FILE) : Z :=
  let '(got, _, _) := fread_items 24 1 file in
  le_word 8 (skipn 8 (overwrite (alloc (u_hdr u) 24) got)).

(** The file offset of frame [frameNumber]: [compressedReadPos]. *)
Definition framePos (d : t) (frameNumber : Z) : Z :=
  u64 (Z.shiftl (Z.land (index_at d frameNumber) 0x7FFFFFFF) (indexShift d)).

(** The decompressed frame: what [inflate] produces for frame [frameNumber],
    cut at [avail_out]. *)
Definition frame_data (d : t) (frameNumber : Z) : list byte :=
  firstn (Z.to_nat (frameSize d))
         (snd (inflate (frame_input d frameNumber) (frameSize d))).

End WithZlib.

End CISOFileBlockDevice.

(** ** NPDRMDemoBlockDevice: the encrypted demo device *)

Module NPDRMDemoBlockDevice.

(** Modelled from the spec: [struct table_info] is declared in
    [BlockDevices.h], which is not among the sources; an entry is 32 bytes,
    eight little-endian words, the last four of them [offset], [size],
    [flag] and [unk_1c] (at byte [0x1c]); [size], [flag] and [unk_1c] are
    signed. *)
Record table_info := mk_info {
  mac : list Z;
  offset : Z;
  size : Z;
  flag : Z;
  unk_1c : Z
}.

(** One round of the loop over the table: [p] points at the eight words of
    an entry, [p[i]] is [nth i p 0]. *)
Definition descramble (p : list Z) : list Z :=
  let k0 := Z.lxor (nth 0 p 0) (nth 1 p 0) in
  let k1 := Z.lxor (nth 1 p 0) (nth 2 p 0) in
  let k2 := Z.lxor (nth 0 p 0) (nth 3 p 0) in
  let k3 := Z.lxor (nth 2 p 0) (nth 3 p 0) in
  [ nth 0 p 0; nth 1 p 0; nth 2 p 0; nth 3 p 0;
    Z.lxor (nth 4 p 0) k3; Z.lxor (nth 5 p 0) k1;
    Z.lxor (nth 6 p 0) k2; Z.lxor (nth 7 p 0) k0 ].

(** [for(i=0; i<numBlocks; i++){ ...; p += 8; }] with [n] rounds left. *)
Fixpoint descramble_loop (n : nat) (p : list Z) : list Z :=
  match n with
  | O => []
  | S k => descramble (firstn 8 p) ++ descramble_loop k (skipn 8 p)
  end.

(** The words of the table seen as [table_info[n]]. *)
Fixpoint entries (n : nat) (p : list Z) : list table_info :=
  match n with
  | O => []
  | S k =>
      mk_info (firstn 4 p) (nth 4 p 0) (s32 (nth 5 p 0)) (s32 (nth 6 p 0))
              (s32 (nth 7 p 0))
      :: entries k (skipn 8 p)
  end.

(** Modelled from the spec: the members are declared in [BlockDevices.h],
    which is not among the sources.  [lbaSize], [psarOffset] and [numBlocks]
    are unsigned 32-bit, [blockSize], [blockLBAs] and [currentBlock] are
    [int], as the source's [-1], [lba>=0] and [(u32)block==(numBlocks-1)]
    have them; for a block number that is not negative the signed and the
    unsigned reading of [blockLBAs] give the same tests and quotients. *)
Record t := mk {
  f : FILE;
  lbaSize : Z;
  psarOffset : Z;
  blockSize : Z;
  blockLBAs : Z;
  numBlocks : Z;
  vkey : list byte;
  hkey : list byte;
  table : list table_info;
  currentBlock : Z;
  blockBuf : list byte;
  tempBuf : list byte
}.

(** [table[i]]. *)
Definition table_at (d : t) (i : Z) : table_info :=
  nth (Z.to_nat i) (table d) (mk_info [] 0 0 0 0).

Section WithPorts.
Context {kirk : Kirk} {lzrc : Lzrc}.

Definition new (u : Uninit) (file : FILE) : t :=
  let f1 := fseek_set file 0x24 in
  let '(got, f2) := fread 4 f1 in
  let psarOffset := le_word 4 (overwrite (alloc (u_psarOffset u) 4) got) in
  let f3 := fseek_set f2 psarOffset in
  let '(hgot, f4) := fread 256 f3 in
  let np_header0 := overwrite (alloc (u_np_header u) 256) hgot in
  (* getkey *)
  let vkey :=
    resize 16 (bbmac_getkey (firstn 0xc0 np_header0) (slice np_header0 0xc0 16)) in
  (* decrypt NP header *)
  let hkey := slice np_header0 0xa0 0x10 in
  let np_header :=
    overwrite_at np_header0 0x40
      (resize 0x60 (bbcipher hkey vkey 0 (slice np_header0 0x40 0x60))) in
  let lbaStart := load32 np_header 0x54 in
  let lbaEnd := load32 np_header 0x64 in
  let lbaSize := u32 (lbaEnd - lbaStart + 1) in
  let blockLBAs := s32 (load32 np_header 0x0c) in
  let blockSize := s32 (blockLBAs * 2048) in
  let numBlocks := u32 (lbaSize + blockLBAs - 1) / u32 blockLBAs in
  let blockBuf := alloc (u_blockBuf u) (size_t blockSize) in
  let tempBuf := alloc (u_tempBuf u) (size_t blockSize) in
  let tableOffset := load32 np_header 0x6c in
  let f5 := fseek_set f4 (u32 (psarOffset + tableOffset)) in
  let tableSize := u32 (numBlocks * 32) in
  let '(tgot, f6) := fread tableSize f5 in
  let raw := overwrite (alloc (u_table u) (numBlocks * 32)) tgot in
  let p := words_of (Z.to_nat (numBlocks * 8)) raw in
  let table := entries (Z.to_nat numBlocks) (descramble_loop (Z.to_nat numBlocks) p) in
  let currentBlock := -1 in
  mk f6 lbaSize psarOffset blockSize blockLBAs numBlocks vkey hkey table
     currentBlock blockBuf tempBuf.

(** Modelled from the spec: [GetNumBlocks] is declared in
    [BlockDevices.h], which is not among the sources; the device exposes
    2048-byte blocks, [lbaSize] of them. *)
Definition GetNumBlocks (d : t) : Z := lbaSize d.

(** The test of the first [if] of [ReadBlock]: the block is inside the
    unit that [currentBlock] names. *)
Definition cache_hit (d : t) (blockNumber : Z) : bool :=
  let lba := s32 (blockNumber - currentBlock d) in
  (0 <=? lba) && (lba <? blockLBAs d).

Definition ReadBlock (d : t) (blockNumber : Z) (outPtr : list byte)
  : bool * list byte * t :=
  let lba := s32 (blockNumber - currentBlock d) in
  if (0 <=? lba) && (lba <? blockLBAs d) then
    (true, overwrite outPtr (slice (blockBuf d) (lba * 2048) BLOCK), d)
  else
    let block := s32 (Z.quot blockNumber (blockLBAs d)) in
    let lba := Z.rem blockNumber (blockLBAs d) in
    let currentBlock := s32 (block * blockLBAs d) in
    let e := table_at d block in
    let d1 f blockBuf tempBuf :=
      mk f (lbaSize d) (psarOffset d) (blockSize d) (blockLBAs d)
         (numBlocks d) (vkey d) (hkey d) (table d) currentBlock
         blockBuf tempBuf in
    if negb (unk_1c e =? 0) then
      if u32 block =? u32 (numBlocks d - 1)
      then (true, outPtr, d1 (f d) (blockBuf d) (tempBuf d))
      else (false, outPtr, d1 (f d) (blockBuf d) (tempBuf d))
    else
      let f1 := fseek_set (f d) (u32 (psarOffset d + offset e)) in
      let use_temp := size e <? blockSize d in
      let '(got, f2) := fread (size_t (size e)) f1 in
      let readBuf := overwrite (if use_temp then tempBuf d else blockBuf d) got in
      let readSize := Z.of_nat (length got) in
      if negb (readSize =? size_t (size e)) then
        let blockBuf1 := if use_temp then blockBuf d else readBuf in
        let tempBuf1 := if use_temp then readBuf else tempBuf d in
        if u32 block =? u32 (numBlocks d - 1)
        then (true, outPtr, d1 f2 blockBuf1 tempBuf1)
        else (false, outPtr, d1 f2 blockBuf1 tempBuf1)
      else
        let readBuf :=
          if Z.land (flag e) 4 =? 0
          then overwrite readBuf
                 (resize (length got)
                    (bbcipher (hkey d) (vkey d) (Z.shiftr (offset e) 4) got))
          else readBuf in
        let blockBuf1 := if use_temp then blockBuf d else readBuf in
        let tempBuf1 := if use_temp then readBuf else tempBuf d in
        if use_temp then
          let '(lzsize, written) :=
            lzrc_decompress 0x00100000 (firstn (length got) readBuf) in
          let blockBuf2 := overwrite blockBuf1 written in
          if negb (lzsize =? blockSize d) then
            (false, outPtr, d1 f2 blockBuf2 tempBuf1)
          else
            (true, overwrite outPtr (slice blockBuf2 (lba * 2048) BLOCK),
             d1 f2 blockBuf2 tempBuf1)
        else
          (true, overwrite outPtr (slice blockBuf1 (lba * 2048) BLOCK),
           d1 f2 blockBuf1 tempBuf1).

(** What the fetch of [ReadBlock] reads for unit [block]. *)
Definition unit_read (d : t) (block : Z) : list byte :=
  let e := table_at d block in
  fst (fread (size_t (size e)) (fseek_set (f d) (u32 (psarOffset d + offset e)))).

(** The bytes read, decrypted unless bit 2 of the entry's flag is set. *)
Definition unit_payload (d : t) (block : Z) : list byte :=
  let e := table_at d block in
  let got := unit_read d block in
  if Z.land (flag e) 4 =? 0
  then resize (length got) (bbcipher (hkey d) (vkey d) (Z.shiftr (offset e) 4) got)
  else got.

(** The bytes that a fetch of unit [block] puts at the start of [blockBuf]:
    the payload, through the LZRC decompressor when the entry's size is below
    the unit size. *)
Definition unit_data (d : t) (block : Z) : list byte :=
  let e := table_at d block in
  if size e <? blockSize d
  then snd (lzrc_decompress 0x00100000 (unit_payload d block))
  else unit_payload d block.

(** The fetch of unit [block] goes through: the entry is no sentinel, the
    resource holds its [size] bytes and, for a compressed unit, the LZRC
    decompressor returns the unit size. *)
Definition fetch_ok (d : t) (block : Z) : bool :=
  let e := table_at d block in
  (unk_1c e =? 0)
  && (Z.of_nat (length (unit_read d block)) =? size_t (size e))
  && (if size e <? blockSize d
      then fst (lzrc_decompress 0x00100000 (unit_payload d block)) =? blockSize d
      else true).

(** What no read changes: the resource, the geometry, the keys, the table. *)
Definition same_image (d d' : t) : Prop :=
  contents (f d') = contents (f d) /\ lbaSize d' = lbaSize d /\
  psarOffset d' = psarOffset d /\ blockSize d' = blockSize d /\
  blockLBAs d' = blockLBAs d /\ numBlocks d' = numBlocks d /\
  vkey d' = vkey d /\ hkey d' = hkey d /\ table d' = table d.

End WithPorts.

End NPDRMDemoBlockDevice.

(** ** The factory *)

(** The closed set of device kinds behind the [BlockDevice] interface. *)
Inductive BlockDevice :=
| IsFile (d : FileBlockDevice.t)
| IsCISO (d : CISOFileBlockDevice.t)
| IsNPDRM (d : NPDRMDemoBlockDevice.t).

(** ["CISO"] and ["\x00PBP"]. *)
Definition magic_CISO : list byte := [x43; x49; x53; x4f].
Definition magic_PBP : list byte := [x00; x50; x42; x50].

(** The sniffing predicate in the spec's words: the resource has at least
    four bytes and its first four are [magic]. *)
Definition first4_is (data magic : list byte) : bool :=
  if list_eq_dec Byte.byte_eq_dec (firstn 4 data) magic then true else false.

(** [File::OpenCFile(filename, "rb")]: the content of the resource, or nothing
    when it cannot be opened. *)
Class Host := {
  OpenCFile : String.string -> option (list byte)
}.

Section Factory.
Context {host : Host} {zlib : Zlib} {kirk : Kirk} {lzrc : Lzrc}.

Definition constructBlockDevice (u : Uninit) (filename : String.string)
  : option BlockDevice :=
  match OpenCFile filename with
  | None => None
  | Some data =>
      let f := mkFILE data 0 in
      let '(got, f1) := fread 4 f in
      let buffer := overwrite (alloc (u_buffer u) 4) got in
      let size := Z.of_nat (length got) in
      let f2 := fseek_set f1 0 in
      if memcmp4_eq buffer magic_CISO && (size =? 4) then
        Some (IsCISO (CISOFileBlockDevice.new u f2))
      else if memcmp4_eq buffer magic_PBP && (size =? 4) then
        Some (IsNPDRM (NPDRMDemoBlockDevice.new u f2))
      else
        Some (IsFile (FileBlockDevice.new f2))
  end.

(** The virtual call [device->ReadBlock(blockNumber, outPtr)]. *)
Definition BlockDevice_ReadBlock (dev : BlockDevice) (blockNumber : Z)
  (outPtr : list byte) : bool * list byte * BlockDevice :=
  match dev with
  | IsFile d =>
      let '(ok, out, d') := FileBlockDevice.ReadBlock d blockNumber outPtr in
      (ok, out, IsFile d')
  | IsCISO d =>
      let '(ok, out, d') := CISOFileBlockDevice.ReadBlock d blockNumber outPtr in
      (ok, out, IsCISO d')
  | IsNPDRM d =>
      let '(ok, out, d') := NPDRMDemoBlockDevice.ReadBlock d blockNumber outPtr in
      (ok, out, IsNPDRM d')
  end.

(** The boolean of a call, and what the call does to the output. *)
Definition result_of (dev : BlockDevice) (blockNumber : Z)
  (outPtr : list byte) : bool :=
  fst (fst (BlockDevice_ReadBlock dev blockNumber outPtr)).

Definition written_by (dev : BlockDevice) (blockNumber : Z)
  : list byte -> list byte :=
  fun outPtr => snd (fst (BlockDevice_ReadBlock dev blockNumber outPtr)).

End Factory.

(** ** Sample images and stand-ins for the external libraries *)

Import String.StringSyntax.
Delimit Scope string_scope with string.

Module Samples.

(** The [n] little-endian bytes of [z]. *)
Fixpoint le_bytes (n : nat) (z : Z) : list byte :=
  match n with
  | O => []
  | S k => byte_of_Z z :: le_bytes k (z / 256)
  end.

Definition set32 (off : nat) (v : Z) (buf : list byte) : list byte :=
  overwrite_at buf off (le_bytes 4 v).

(** A decompressor that finds its input stored: it ends the stream after
    copying the input. *)
Definition stored_zlib : Zlib :=
  {| inflateInit2 := Z_OK;
     inflate := fun input _ => (Z_STREAM_END, input) |}.

(** A zlib that cannot allocate its state ([Z_MEM_ERROR]). *)
Definition failing_zlib : Zlib :=
  {| inflateInit2 := -4;
     inflate := fun input _ => (Z_STREAM_END, input) |}.

Definition null_kirk : Kirk :=
  {| bbmac_getkey := fun _ _ => repeat x00 16;
     bbcipher := fun _ _ _ data => data |}.

Definition copy_lzrc : Lzrc :=
  {| lzrc_decompress := fun _ input => (Z.of_nat (length input), input) |}.

(** Fresh memory filled with [0xcc]. *)
Definition junk : Uninit :=
  let j := repeat xcc (Z.to_nat 8192) in
  mkUninit j j j j j j j j j j.

(** A resource of two blocks. *)
Definition plain_image : list byte := repeat x41 2048 ++ repeat x42 2048.

(** A CISO image of three frames of two blocks: frames 0 and 1 compressed,
    frame 2 stored uncompressed. *)
Definition ciso_image : list byte :=
  magic_CISO ++ le_bytes 4 0x18 ++ le_bytes 8 12288 ++ le_bytes 4 4096
  ++ [x01; x00; x00; x00]
  ++ le_bytes 4 40 ++ le_bytes 4 4136 ++ le_bytes 4 (0x80000000 + 8232)
  ++ le_bytes 4 12328
  ++ repeat x11 4096 ++ repeat x22 4096 ++ repeat x33 4096.

Definition ciso_device : CISOFileBlockDevice.t :=
  CISOFileBlockDevice.new junk (mkFILE ciso_image 0).

(** An NPDRM image of three units of two blocks: the table of units 0 and 2
    carries the sentinel, unit 1 is stored raw and unencrypted. *)
Definition npdrm_header : list byte :=
  set32 0x6c 0x100 (set32 0x64 5 (set32 0x54 0 (set32 0x0c 2 (repeat x00 256)))).

Definition npdrm_table : list byte :=
  repeat x00 16 ++ le_bytes 4 0 ++ le_bytes 4 0 ++ le_bytes 4 0 ++ le_bytes 4 1
  ++ repeat x00 16 ++ le_bytes 4 0x160 ++ le_bytes 4 4096 ++ le_bytes 4 4
     ++ le_bytes 4 0
  ++ repeat x00 16 ++ le_bytes 4 0 ++ le_bytes 4 0 ++ le_bytes 4 0 ++ le_bytes 4 1.

Definition npdrm_image : list byte :=
  magic_PBP ++ repeat x00 0x20 ++ le_bytes 4 0x28
  ++ npdrm_header ++ npdrm_table
  ++ repeat x5a 2048 ++ repeat x5b 2048.

Definition npdrm_device : NPDRMDemoBlockDevice.t :=
  @NPDRMDemoBlockDevice.new null_kirk junk (mkFILE npdrm_image 0).

Definition zeros : list byte := repeat x00 2048.
Definition ones : list byte := repeat xff 2048.

(** A CISO image of two frames of one block, both compressed. *)
Definition ciso_image_2k : list byte :=
  magic_CISO ++ le_bytes 4 0x18 ++ le_bytes 8 4096 ++ le_bytes 4 2048
  ++ [x01; x00; x00; x00]
  ++ le_bytes 4 36 ++ le_bytes 4 2084 ++ le_bytes 4 4132
  ++ repeat x11 2048 ++ repeat x22 2048.

Definition ciso_device_2k : CISOFileBlockDevice.t :=
  CISOFileBlockDevice.new junk (mkFILE ciso_image_2k 0).

(** A CISO image whose index is cut short: three frames announced, one index
    entry present. *)
Definition ciso_image_cut : list byte :=
  magic_CISO ++ le_bytes 4 0x18 ++ le_bytes 8 12288 ++ le_bytes 4 4096
  ++ [x01; x00; x00; x00]
  ++ le_bytes 4 40.

(** A decompressor that rejects every stream ([Z_DATA_ERROR]) after
    producing its first 16 bytes. *)
Definition rejecting_zlib : Zlib :=
  {| inflateInit2 := Z_OK;
     inflate := fun input _ => (-3, firstn 16 input) |}.

(** An LZRC decompressor that gives up. *)
Definition failing_lzrc : Lzrc :=
  {| lzrc_decompress := fun _ _ => (-1, []) |}.

(** The sample NPDRM image cut inside the data of unit 1. *)
Definition npdrm_device_cut : NPDRMDemoBlockDevice.t :=
  @NPDRMDemoBlockDevice.new null_kirk junk (mkFILE (firstn 0x1000 npdrm_image) 0).

(** An NPDRM image whose unit 1 is stored compressed, in 2048 bytes. *)
Definition npdrm_image_lz : list byte :=
  magic_PBP ++ repeat x00 0x20 ++ le_bytes 4 0x28
  ++ npdrm_header
  ++ repeat x00 16 ++ le_bytes 4 0 ++ le_bytes 4 0 ++ le_bytes 4 0 ++ le_bytes 4 1
  ++ repeat x00 16 ++ le_bytes 4 0x160 ++ le_bytes 4 2048 ++ le_bytes 4 4
     ++ le_bytes 4 0
  ++ repeat x00 16 ++ le_bytes 4 0 ++ le_bytes 4 0 ++ le_bytes 4 0 ++ le_bytes 4 1
  ++ repeat x5a 2048.

Definition npdrm_device_lz : NPDRMDemoBlockDevice.t :=
  @NPDRMDemoBlockDevice.new null_kirk junk (mkFILE npdrm_image_lz 0).

(** Sixteen words, two table entries. *)
Definition two_entries : list Z :=
  [1; 2; 3; 4; 5; 6; 7; 8; 0x80000001; 0xffffffff; 0; 7; 0x160; 4096; 4; 0].

(** A file system with the three sample images and a two-byte resource. *)
Definition host : Host :=
  {| OpenCFile := fun name =>
       if String.eqb name "game.iso"%string then Some plain_image
       else if String.eqb name "game.cso"%string then Some ciso_image
       else if String.eqb name "demo.pbp"%string then Some npdrm_image
       else if String.eqb name "tiny.bin"%string then Some [x43; x49]
       else None |}.

End Samples.

(** * Properties *)

(** ** Integers and buffers *)

Lemma u32_small (x : Z) : 0 <= x < 2 ^ 32 -> u32 x = x.
Proof. intros H. unfold u32. apply Z.mod_small. exact H. Qed.

Lemma u64_small (x : Z) : 0 <= x < 2 ^ 64 -> u64 x = x.
Proof. intros H. unfold u64. apply Z.mod_small. exact H. Qed.

Lemma s32_small (x : Z) : - 2 ^ 31 <= x < 2 ^ 31 -> s32 x = x.
Proof. intros H. unfold s32. rewrite Z.mod_small; lia. Qed.

Lemma off_t_small (x : Z) : - 2 ^ 63 <= x < 2 ^ 63 -> off_t x = x.
Proof. intros H. unfold off_t. rewrite Z.mod_small; lia. Qed.

Lemma u32_of_nat_le (n : nat) : (Z.to_nat (u32 (Z.of_nat n)) <= n)%nat.
Proof.
  unfold u32.
  pose proof (Z.mod_le (Z.of_nat n) (2 ^ 32) ltac:(lia) ltac:(lia)).
  pose proof (Z.mod_pos_bound (Z.of_nat n) (2 ^ 32) ltac:(lia)).
  lia.
Qed.

Lemma fseek_set_nonneg (f : FILE) (off : Z) :
  0 <= off -> fseek_set f off = mkFILE (contents f) off.
Proof.
  intros H. unfold fseek_set. destruct (off <? 0) eqn:E; [lia | reflexivity].
Qed.

Lemma fread_length (n : Z) (f : FILE) :
  (length (fst (fread n f)) <= Z.to_nat n)%nat.
Proof. unfold fread. cbn [fst]. rewrite length_firstn. apply Nat.le_min_l. Qed.

Lemma overwrite_length_block (dst data : list byte) :
  length data = BLOCK -> overwrite dst data = data ++ skipn BLOCK dst.
Proof. intros H. unfold overwrite. rewrite H. reflexivity. Qed.

Lemma resize_length (n : nat) (l : list byte) : length (resize n l) = n.
Proof.
  unfold resize. rewrite length_firstn, length_app, repeat_length. lia.
Qed.

Lemma slice_length (buf : list byte) (off : Z) (n : nat) :
  length (slice buf off n) = n.
Proof. apply resize_length. Qed.

Lemma memset0_block (dst : list byte) :
  memset0 dst BLOCK = repeat x00 BLOCK ++ skipn BLOCK dst.
Proof. unfold memset0, overwrite. rewrite repeat_length. reflexivity. Qed.

Lemma skipn_overwrite (dst data : list byte) (n : nat) :
  (length data <= n)%nat -> skipn n (overwrite dst data) = skipn n dst.
Proof.
  intros H. unfold overwrite. rewrite skipn_app.
  rewrite (skipn_all2 data) by exact H. cbn [app].
  rewrite skipn_skipn. f_equal. lia.
Qed.

(** ** The plain device *)

Module FileBlockDeviceFacts.
Import FileBlockDevice.

Lemma new_wf (file : FILE) : wf (new file).
Proof. unfold wf, new. cbn. reflexivity. Qed.

Lemma ReadBlock_wf (d : t) (n : Z) (out : list byte) :
  wf d -> wf (snd (ReadBlock d n out)).
Proof.
  unfold wf, ReadBlock. intros H.
  destruct (fread 2048 _) as [got f2] eqn:E. cbn.
  unfold fread in E. injection E as _ <-. cbn.
  unfold fseek_set. destruct (_ <? 0); cbn; exact H.
Qed.

(** A read of a block that the resource holds entirely. *)
Lemma ReadBlock_whole (d : t) (n : Z) (out : list byte) :
  0 <= n < 2 ^ 31 ->
  (n + 1) * 2048 <= Z.of_nat (length (contents (f d))) ->
  let data := firstn BLOCK (skipn (Z.to_nat (n * 2048)) (contents (f d))) in
  length data = BLOCK /\
  fst (ReadBlock d n out) = (true, data ++ skipn BLOCK out).
Proof.
  intros Hn Hlen data.
  assert (Hd : length data = BLOCK).
  { unfold data. rewrite length_firstn, length_skipn. unfold BLOCK. lia. }
  split; [exact Hd|].
  unfold ReadBlock, GetBlockSize.
  rewrite (u64_small n), (u64_small 2048), (u64_small (n * 2048)),
    (off_t_small (n * 2048)) by lia.
  rewrite fseek_set_nonneg by lia.
  unfold fread. cbn [fst snd contents fpos].
  change (Z.to_nat 2048) with BLOCK. fold data.
  rewrite overwrite_length_block by exact Hd. reflexivity.
Qed.

End FileBlockDeviceFacts.

(** C8.  For every plain device (its recorded size being the size of its
    resource) and every block index [n] below the block count, [ReadBlock n]
    reports success and leaves in the 2048-byte output exactly the 2048 bytes
    found at byte offset [n * 2048] of the resource. *)
Theorem plain_read_block_in_range (d : FileBlockDevice.t) (n : Z) (out : list byte) :
  FileBlockDevice.wf d ->
  0 <= n < 2 ^ 31 ->
  n < FileBlockDevice.GetNumBlocks d ->
  let data :=
    firstn BLOCK (skipn (Z.to_nat (n * 2048)) (contents (FileBlockDevice.f d))) in
  length data = BLOCK /\
  fst (fst (FileBlockDevice.ReadBlock d n out)) = true /\
  firstn BLOCK (snd (fst (FileBlockDevice.ReadBlock d n out))) = data.
Proof.
  intros Hwf Hn Hlt data.
  assert (Hlen : (n + 1) * 2048
                 <= Z.of_nat (length (contents (FileBlockDevice.f d)))).
  { unfold FileBlockDevice.wf in Hwf. rewrite <- Hwf.
    unfold FileBlockDevice.GetNumBlocks, GetBlockSize in Hlt.
    pose proof (Z.mul_div_le (FileBlockDevice.filesize d) 2048 ltac:(lia)).
    lia. }
  destruct (FileBlockDeviceFacts.ReadBlock_whole d n out Hn Hlen) as [Hd Hr].
  fold data in Hd, Hr.
  split; [exact Hd|]. rewrite Hr. cbn [fst snd]. split; [reflexivity|].
  rewrite firstn_app, Hd, Nat.sub_diag. cbn [firstn]. rewrite app_nil_r.
  rewrite <- Hd. apply firstn_all.
Qed.

Lemma plain_pad (out got : list byte) :
  (length got <= BLOCK)%nat ->
  let readSize := s32 (u32 (Z.of_nat (length got))) in
  (if readSize <? GetBlockSize
   then overwrite_at (overwrite out got) (Z.to_nat readSize)
          (repeat x00 (Z.to_nat (GetBlockSize - readSize)))
   else overwrite out got)
  = (got ++ repeat x00 (BLOCK - length got)) ++ skipn BLOCK out.
Proof.
  intros Hle readSize. unfold BLOCK in Hle.
  assert (Hr : readSize = Z.of_nat (length got)).
  { unfold readSize. rewrite u32_small by lia. apply s32_small. lia. }
  rewrite Hr. unfold GetBlockSize.
  destruct (Z.ltb_spec (Z.of_nat (length got)) 2048) as [Hlt|Hge].
  - unfold overwrite_at, overwrite. rewrite Nat2Z.id.
    rewrite firstn_app, firstn_all, Nat.sub_diag, firstn_O, app_nil_r.
    rewrite skipn_app, skipn_all, Nat.sub_diag, skipn_O. cbn [app].
    rewrite repeat_length, skipn_skipn.
    replace (Z.to_nat (2048 - Z.of_nat (length got)))
      with (BLOCK - length got)%nat by (unfold BLOCK; lia).
    replace (BLOCK - length got + length got)%nat with BLOCK
      by (unfold BLOCK; lia).
    rewrite <- app_assoc. reflexivity.
  - assert (H : length got = BLOCK) by (unfold BLOCK; lia).
    rewrite H, Nat.sub_diag. cbn [repeat]. rewrite app_nil_r.
    apply overwrite_length_block. exact H.
Qed.

(** ** The compressed frame device *)

Lemma land_bit31 (x : Z) :
  Z.land x (2 ^ 31) = if Z.testbit x 31 then 2 ^ 31 else 0.
Proof.
  apply Z.bits_inj'. intros k Hk.
  rewrite Z.land_spec, Z.pow2_bits_eqb by lia.
  destruct (Z.eqb_spec 31 k) as [<-|Hne].
  - destruct (Z.testbit x 31); cbn [andb].
    + symmetry. apply Z.pow2_bits_true. lia.
    + symmetry. apply Z.bits_0.
  - rewrite andb_false_r. destruct (Z.testbit x 31).
    + symmetry. apply Z.pow2_bits_false. lia.
    + symmetry. apply Z.bits_0.
Qed.

(** The [plain] flag of the source is non-zero exactly when bit 31 of the
    index entry is set. *)
Lemma plain_flag (idx : Z) :
  negb (s32 (Z.land idx 0x80000000) =? 0) = Z.testbit idx 31.
Proof.
  change 0x80000000 with (2 ^ 31). rewrite land_bit31.
  destruct (Z.testbit idx 31); reflexivity.
Qed.

Section CISOFacts.
Context {zlib : Zlib}.
Import CISOFileBlockDevice.

Lemma ReadBlock_out_of_range (d : t) (n : Z) (out : list byte) :
  0 <= n < 2 ^ 31 -> numBlocks d <= n ->
  ReadBlock d n out = (false, repeat x00 BLOCK ++ skipn BLOCK out, d).
Proof.
  intros Hn Hge. unfold ReadBlock.
  rewrite (u32_small n) by lia.
  destruct (numBlocks d <=? n) eqn:E; [|lia].
  rewrite memset0_block. reflexivity.
Qed.

(** C6.  A CISO read of a block index at or above the block count
    ([block_count] itself included) reports failure, leaves 2048 zero bytes
    in the output and does not change the device. *)
Theorem ciso_read_block_out_of_range (d : t) (n : Z) (out : list byte) :
  0 <= n < 2 ^ 31 -> numBlocks d <= n ->
  fst (fst (ReadBlock d n out)) = false /\
  firstn BLOCK (snd (fst (ReadBlock d n out))) = repeat x00 BLOCK /\
  snd (ReadBlock d n out) = d.
Proof.
  intros Hn Hge. rewrite (ReadBlock_out_of_range d n out Hn Hge).
  cbn [fst snd]. split; [reflexivity|]. split; [|reflexivity].
  rewrite firstn_app, repeat_length, Nat.sub_diag, firstn_O, app_nil_r.
  apply firstn_all2. rewrite repeat_length. apply Nat.le_refl.
Qed.

(** C10.  A CISO read of a block whose frame is stored uncompressed (bit 31
    of its index entry set) leaves the frame cache as it was: the cached
    frame number and the cached bytes; it does not call [inflate]. *)
Theorem ciso_stored_frame_keeps_cache (d : t) (n : Z) (out : list byte) :
  Z.testbit (index_at d (u32 (Z.shiftr n (blockShift d)))) 31 = true ->
  zlibBufferFrame (snd (ReadBlock d n out)) = zlibBufferFrame d /\
  zlibBuffer (snd (ReadBlock d n out)) = zlibBuffer d /\
  inflateCalls (snd (ReadBlock d n out)) = inflateCalls d.
Proof.
  intros Hbit. unfold ReadBlock.
  destruct (numBlocks d <=? u32 n); [repeat split|].
  rewrite plain_flag, Hbit.
  destruct (fread GetBlockSize _) as [got f2]. cbn [snd fst].
  repeat split.
Qed.

(** Every return of [ReadBlock] but the one after a failed [inflateInit2]
    leaves a whole block in the output. *)
Lemma ReadBlock_writes (d : t) (n : Z) :
  reaches_inflateInit2 d n = false \/ inflateInit2 = Z_OK ->
  fully_written (fun out => snd (fst (ReadBlock d n out))).
Proof.
  intros H. unfold fully_written, ReadBlock.
  unfold reaches_inflateInit2 in H. cbv zeta in H.
  destruct (numBlocks d <=? u32 n).
  { exists (repeat x00 BLOCK). split; [apply repeat_length|].
    intros out. cbn [fst snd]. apply memset0_block. }
  cbv zeta.
  destruct (s32 (Z.land (index_at d (u32 (Z.shiftr n (blockShift d)))) 0x80000000) =? 0).
  2:{ cbn [negb].
      destruct (fread GetBlockSize _) as [got f2] eqn:Efr.
      assert (Hle : (length got <= BLOCK)%nat).
      { change got with (fst (got, f2)). rewrite <- Efr.
        apply (fread_length GetBlockSize). }
      exists (got ++ repeat x00 (BLOCK - length got)). split.
      - rewrite length_app, repeat_length. lia.
      - intros out. cbn [fst snd]. apply plain_pad. exact Hle. }
  cbn [negb].
  destruct (zlibBufferFrame d =? u32 (Z.shiftr n (blockShift d))).
  { eexists. split; [|intros out; cbn [fst snd];
                       apply overwrite_length_block; apply slice_length].
    apply slice_length. }
  destruct H as [H|H]; [discriminate H|].
  destruct (fread _ _) as [got f2].
  rewrite H, Z.eqb_refl. cbn [negb].
  destruct (inflate _ (frameSize d)) as [status produced0].
  set (produced := firstn (Z.to_nat (frameSize d)) produced0).
  assert (Hzero : forall out : list byte,
            (frameSize d =? GetBlockSize) = true ->
            memset0 (overwrite out produced) BLOCK
            = repeat x00 BLOCK ++ skipn BLOCK out).
  { intros out Ed. rewrite memset0_block. f_equal.
    apply skipn_overwrite. unfold produced. rewrite length_firstn.
    apply Z.eqb_eq in Ed. rewrite Ed. unfold GetBlockSize, BLOCK. lia. }
  destruct (status =? Z_STREAM_END); cbn [negb].
  2:{ exists (repeat x00 BLOCK). split; [apply repeat_length|].
      intros out. cbn [fst snd].
      destruct (frameSize d =? GetBlockSize) eqn:Ed;
        [apply Hzero; reflexivity | apply memset0_block]. }
  destruct (Z.eqb_spec (Z.of_nat (length produced)) (frameSize d)) as [Hlen|Hlen];
    cbn [negb].
  2:{ exists (repeat x00 BLOCK). split; [apply repeat_length|].
      intros out. cbn [fst snd].
      destruct (frameSize d =? GetBlockSize) eqn:Ed;
        [apply Hzero; reflexivity | apply memset0_block]. }
  destruct (Z.eqb_spec (frameSize d) GetBlockSize) as [Ed|Ed]; cbn [negb].
  - assert (Hp : length produced = BLOCK)
      by (unfold GetBlockSize in Ed; unfold BLOCK; lia).
    exists produced. split; [exact Hp|].
    intros out. cbn [fst snd]. apply overwrite_length_block. exact Hp.
  - eexists. split; [|intros out; cbn [fst snd];
                       apply overwrite_length_block; apply slice_length].
    apply slice_length.
Qed.

Lemma same_image_decodes (d d' : t) (F : Z) :
  same_image d d' -> frame_decodes d' F = frame_decodes d F.
Proof.
  intros (Hc & Hi & Hs & _ & Hf & _).
  unfold frame_decodes, frame_input, index_at.
  rewrite Hc, Hi, Hs, Hf. reflexivity.
Qed.

Lemma firstn_overwrite (dst got : list byte) (k : nat) :
  (k <= length got)%nat -> firstn k (overwrite dst got) = firstn k got.
Proof.
  intros H. unfold overwrite. rewrite firstn_app.
  replace (k - length got)%nat with O by lia.
  rewrite firstn_O, app_nil_r. reflexivity.
Qed.

(** A read that finds its compressed frame in the cache copies from it and
    changes nothing. *)
Lemma ReadBlock_cached (d : t) (b : Z) (out : list byte) :
  0 <= b < numBlocks d -> b < 2 ^ 31 -> 0 <= blockShift d ->
  Z.testbit (index_at d (Z.shiftr b (blockShift d))) 31 = false ->
  zlibBufferFrame d = Z.shiftr b (blockShift d) ->
  ReadBlock d b out
  = (true, overwrite out (slice (zlibBuffer d) (compressedOffset d b) BLOCK), d).
Proof.
  intros Hb Hnb Hs Hbit Hc. unfold ReadBlock.
  rewrite (u32_small b) by lia.
  destruct (numBlocks d <=? b) eqn:E; [lia|].
  assert (Hf : 0 <= Z.shiftr b (blockShift d) <= b).
  { rewrite Z.shiftr_div_pow2 by lia. split.
    - apply Z.div_pos; [lia | apply Z.pow_pos_nonneg; lia].
    - apply Z.div_le_upper_bound; [apply Z.pow_pos_nonneg; lia|].
      pose proof (Z.pow_pos_nonneg 2 (blockShift d) ltac:(lia) Hs). nia. }
  rewrite (u32_small (Z.shiftr b (blockShift d))) by lia.
  rewrite plain_flag, Hbit, Hc, Z.eqb_refl. reflexivity.
Qed.

(** A read that misses the cache on a well-formed compressed frame calls
    [inflate] once and leaves the frame in the cache. *)
Lemma ReadBlock_decompress (d : t) (b : Z) (out : list byte) :
  inflateInit2 = Z_OK -> frameSize d <> GetBlockSize ->
  0 <= b < numBlocks d -> b < 2 ^ 31 -> 0 <= blockShift d ->
  Z.testbit (index_at d (Z.shiftr b (blockShift d))) 31 = false ->
  frame_decodes d (Z.shiftr b (blockShift d)) = true ->
  zlibBufferFrame d <> Z.shiftr b (blockShift d) ->
  let d' := snd (ReadBlock d b out) in
  fst (fst (ReadBlock d b out)) = true /\
  inflateCalls d' = S (inflateCalls d) /\
  zlibBufferFrame d' = Z.shiftr b (blockShift d) /\
  same_image d d'.
Proof.
  intros Hinit Hfs Hb Hnb Hs Hbit Hdec Hc. unfold ReadBlock.
  rewrite (u32_small b) by lia.
  destruct (numBlocks d <=? b) eqn:E; [lia|].
  assert (Hf : 0 <= Z.shiftr b (blockShift d) <= b).
  { rewrite Z.shiftr_div_pow2 by lia. split.
    - apply Z.div_pos; [lia | apply Z.pow_pos_nonneg; lia].
    - apply Z.div_le_upper_bound; [apply Z.pow_pos_nonneg; lia|].
      pose proof (Z.pow_pos_nonneg 2 (blockShift d) ltac:(lia) Hs). nia. }
  rewrite (u32_small (Z.shiftr b (blockShift d))) by lia.
  set (F := Z.shiftr b (blockShift d)) in *.
  rewrite plain_flag, Hbit.
  destruct (zlibBufferFrame d =? F) eqn:EF; [lia|].
  cbv beta iota.
  unfold frame_decodes, frame_input in Hdec.
  apply andb_prop in Hdec. destruct Hdec as [Hdec Hlen].
  apply andb_prop in Hdec. destruct Hdec as [Hpos Hst].
  set (pos := u64 (Z.shiftl (Z.land (index_at d F) 0x7FFFFFFF) (indexShift d))) in *.
  assert (Hp0 : 0 <= pos) by (apply Z.mod_pos_bound; lia).
  rewrite off_t_small by lia.
  rewrite fseek_set_nonneg by lia.
  destruct (fread _ _) as [got f2] eqn:Efr in |- *.
  rewrite Efr in Hst, Hlen. cbn [fst] in Hst, Hlen.
  unfold fread in Efr. cbn [contents fpos] in Efr. injection Efr as _ Hf2.
  rewrite Hinit, Z.eqb_refl. cbn [negb].
  rewrite (firstn_overwrite (readBuffer d) got) by apply u32_of_nat_le.
  destruct (inflate _ (frameSize d)) as [status produced0].
  cbn [fst snd] in Hst, Hlen. rewrite Hst, Hlen. cbn [negb].
  destruct (frameSize d =? GetBlockSize) eqn:Ed; [lia|].
  cbn [negb snd fst inflateCalls zlibBufferFrame].
  unfold same_image. cbn. rewrite <- Hf2. cbn. repeat split.
Qed.

Lemma frame_block_shift (d : t) (F k : Z) :
  0 <= blockShift d -> 0 <= k < 2 ^ blockShift d ->
  Z.shiftr (F * 2 ^ blockShift d + k) (blockShift d) = F.
Proof.
  intros Hs Hk. rewrite Z.shiftr_div_pow2 by lia.
  rewrite Z.div_add_l by lia. rewrite Z.div_small by lia. lia.
Qed.

(** Reads that all find their frame in the cache leave the device as it
    is. *)
Lemma read_blocks_cached (d : t) (F : Z) (blocks : list Z) (out : list byte) :
  0 <= blockShift d ->
  Z.testbit (index_at d F) 31 = false ->
  zlibBufferFrame d = F ->
  Forall (fun b => (0 <= b < numBlocks d /\ b < 2 ^ 31) /\
                   Z.shiftr b (blockShift d) = F) blocks ->
  snd (read_blocks d blocks out) = d.
Proof.
  intros Hs Hbit Hc Hall. revert out.
  induction Hall as [|b rest [[Hb Hnb] HF] _ IH]; intros out; [reflexivity|].
  cbn [read_blocks].
  rewrite (ReadBlock_cached d b out Hb Hnb Hs)
    by (rewrite HF; assumption).
  apply IH.
Qed.

End CISOFacts.

(** ** The table transform of the encrypted demo device *)

Lemma lxor_twice (a k : Z) : Z.lxor (Z.lxor a k) k = a.
Proof. rewrite Z.lxor_assoc, Z.lxor_nilpotent, Z.lxor_0_r. reflexivity. Qed.

Lemma descramble_twice (p0 p1 p2 p3 p4 p5 p6 p7 : Z) :
  NPDRMDemoBlockDevice.descramble
    (NPDRMDemoBlockDevice.descramble [p0; p1; p2; p3; p4; p5; p6; p7])
  = [p0; p1; p2; p3; p4; p5; p6; p7].
Proof.
  unfold NPDRMDemoBlockDevice.descramble. cbn [nth].
  rewrite !lxor_twice. reflexivity.
Qed.

(** C2, as the code has it.  The transform of a table entry is its own
    inverse: applied twice to the eight words of any entry it gives the
    entry back. *)
Theorem descramble_involutive (p0 p1 p2 p3 p4 p5 p6 p7 : Z) :
  let p := [p0; p1; p2; p3; p4; p5; p6; p7] in
  NPDRMDemoBlockDevice.descramble p
  = [p0; p1; p2; p3;
     Z.lxor p4 (Z.lxor p2 p3); Z.lxor p5 (Z.lxor p1 p2);
     Z.lxor p6 (Z.lxor p0 p3); Z.lxor p7 (Z.lxor p0 p1)] /\
  NPDRMDemoBlockDevice.descramble (NPDRMDemoBlockDevice.descramble p) = p.
Proof.
  intros p. split; [reflexivity|]. apply descramble_twice.
Qed.

(** C2, as the spec has it, fails: no entry is changed by applying the
    transform twice. *)
Lemma descramble_not_involutive_refuted :
  ~ (exists p0 p1 p2 p3 p4 p5 p6 p7 : Z,
        let p := [p0; p1; p2; p3; p4; p5; p6; p7] in
        NPDRMDemoBlockDevice.descramble (NPDRMDemoBlockDevice.descramble p)
        <> p).
Proof.
  intros (p0 & p1 & p2 & p3 & p4 & p5 & p6 & p7 & H).
  apply H. apply descramble_twice.
Qed.

(** ** The unit cache of the encrypted demo device *)

Section NPDRMFacts.
Context {kirk : Kirk} {lzrc : Lzrc}.
Import NPDRMDemoBlockDevice.

Lemma new_currentBlock (u : Uninit) (file : FILE) :
  currentBlock (new u file) = -1.
Proof.
  unfold new.
  repeat match goal with
         | |- context [let '(_, _) := ?e in _] => destruct e
         end.
  reflexivity.
Qed.

(** The first branch of [ReadBlock]: a copy out of [blockBuf], nothing
    fetched, nothing changed. *)
Lemma ReadBlock_hit (d : t) (n : Z) (out : list byte) :
  cache_hit d n = true ->
  ReadBlock d n out
  = (true,
     overwrite out (slice (blockBuf d) (s32 (n - currentBlock d) * 2048) BLOCK),
     d).
Proof.
  unfold cache_hit, ReadBlock. cbv zeta. intros ->. reflexivity.
Qed.

(** Every path that leaves the first branch has already written
    [currentBlock]. *)
Lemma ReadBlock_miss_state (d : t) (n : Z) (out : list byte) :
  cache_hit d n = false ->
  let d1 := snd (ReadBlock d n out) in
  currentBlock d1 = s32 (s32 (Z.quot n (blockLBAs d)) * blockLBAs d) /\
  blockLBAs d1 = blockLBAs d /\ numBlocks d1 = numBlocks d /\
  table d1 = table d.
Proof.
  unfold cache_hit, ReadBlock. cbv zeta. intros ->.
  repeat match goal with
         | |- context [let '(_, _) := ?e in _] => destruct e
         | |- context [if ?c then _ else _] => destruct c
         end; cbn; repeat split.
Qed.

Lemma unit_of_block (L b : Z) :
  0 < L -> 0 <= b < 2 ^ 31 ->
  s32 (s32 (Z.quot b L) * L) = Z.quot b L * L /\
  0 <= Z.quot b L <= b /\
  Z.quot b L * L <= b < Z.quot b L * L + L.
Proof.
  intros HL Hb.
  rewrite Z.quot_div_nonneg by lia.
  pose proof (Z.div_mod b L ltac:(lia)) as Hdm.
  pose proof (Z.mod_pos_bound b L HL) as Hm.
  assert (Hq : 0 <= b / L) by (apply Z.div_pos; lia).
  assert (Hle : b / L * L <= b) by nia.
  assert (Hqb : b / L <= b) by nia.
  rewrite (s32_small (b / L)) by lia.
  rewrite s32_small by nia.
  repeat split; nia.
Qed.

(** After a read that left the first branch, whatever it returned, every
    block of the same unit is inside the unit that [currentBlock] names. *)
Lemma same_unit_hits (d : t) (b b' : Z) (out : list byte) :
  0 < blockLBAs d -> 0 <= b < 2 ^ 31 -> 0 <= b' < 2 ^ 31 ->
  Z.quot b' (blockLBAs d) = Z.quot b (blockLBAs d) ->
  cache_hit d b = false ->
  cache_hit (snd (ReadBlock d b out)) b' = true.
Proof.
  intros HL Hb Hb' Hq Hmiss.
  destruct (ReadBlock_miss_state d b out Hmiss) as (Hc & Hl & _).
  unfold cache_hit. rewrite Hc, Hl.
  destruct (unit_of_block (blockLBAs d) b HL Hb) as (-> & _ & _).
  destruct (unit_of_block (blockLBAs d) b' HL Hb') as (_ & Hq0 & Hr).
  rewrite Hq in Hr, Hq0. rewrite s32_small by nia.
  apply andb_true_intro. split; [apply Z.leb_le | apply Z.ltb_lt]; lia.
Qed.

(** A return of [ReadBlock] either copied a whole block out of [blockBuf]
    and reports success, or did not write to the output at all. *)
Lemma ReadBlock_output (d : t) (n : Z) :
  untouched (fun out => snd (fst (ReadBlock d n out))) \/
  (fully_written (fun out => snd (fst (ReadBlock d n out))) /\
   forall out, fst (fst (ReadBlock d n out)) = true).
Proof.
  unfold untouched, fully_written, ReadBlock. cbv zeta.
  repeat match goal with
         | |- context [let '(_, _) := ?e in _] => destruct e
         | |- context [if ?c then _ else _] => destruct c
         end; cbn [fst snd];
    first
      [ left; intros out; reflexivity
      | right; split; [|intros out; reflexivity];
        eexists; split;
        [|intros out; apply overwrite_length_block; apply slice_length];
        apply slice_length ].
Qed.

(** C3, at the input where the code fails it.  On a device just built,
    with units of two blocks or more, the first read, of block 0, takes the
    first branch: it fetches nothing, reports success and hands out the
    second 2048 bytes of the never written [blockBuf]. *)
Theorem fresh_npdrm_block0_taken_from_cache
  (u : Uninit) (file : FILE) (out : list byte) :
  2 <= blockLBAs (new u file) ->
  cache_hit (new u file) 0 = true /\
  ReadBlock (new u file) 0 out
  = (true, overwrite out (slice (blockBuf (new u file)) 2048 BLOCK), new u file).
Proof.
  intros HL.
  assert (Hhit : cache_hit (new u file) 0 = true).
  { unfold cache_hit. rewrite new_currentBlock.
    change (s32 (0 - -1)) with 1.
    apply andb_true_intro. split; [reflexivity | apply Z.ltb_lt; lia]. }
  split; [exact Hhit|].
  rewrite (ReadBlock_hit _ 0 out Hhit), new_currentBlock. reflexivity.
Qed.

(** C4, at the inputs where the code fails it.  After a read of block [b]
    that left the first branch and reported failure, a read of any block
    [b'] of the same unit takes the first branch: it reports success with a
    copy out of [blockBuf] and fetches nothing, the device staying as the
    failed read left it. *)
Theorem npdrm_failed_unit_served_from_cache
  (d : t) (b b' : Z) (out out' : list byte) :
  0 < blockLBAs d -> 0 <= b < 2 ^ 31 -> 0 <= b' < 2 ^ 31 ->
  Z.quot b' (blockLBAs d) = Z.quot b (blockLBAs d) ->
  cache_hit d b = false ->
  fst (fst (ReadBlock d b out)) = false ->
  let d1 := snd (ReadBlock d b out) in
  cache_hit d1 b' = true /\
  ReadBlock d1 b' out'
  = (true,
     overwrite out' (slice (blockBuf d1) (s32 (b' - currentBlock d1) * 2048) BLOCK),
     d1).
Proof.
  intros HL Hb Hb' Hq Hmiss _ d1.
  assert (Hhit : cache_hit d1 b' = true)
    by (apply same_unit_hits; assumption).
  split; [exact Hhit|]. apply ReadBlock_hit. exact Hhit.
Qed.

(** The sentinel branch. *)
Lemma ReadBlock_sentinel (d : t) (b : Z) (out : list byte) :
  cache_hit d b = false ->
  unk_1c (table_at d (s32 (Z.quot b (blockLBAs d)))) <> 0 ->
  fst (ReadBlock d b out)
  = (u32 (s32 (Z.quot b (blockLBAs d))) =? u32 (numBlocks d - 1), out).
Proof.
  unfold cache_hit, ReadBlock. cbv zeta. intros -> Hunk.
  destruct (Z.eqb_spec (unk_1c (table_at d (s32 (Z.quot b (blockLBAs d))))) 0)
    as [E|E]; [contradiction|].
  cbn [negb].
  destruct (u32 (s32 (Z.quot b (blockLBAs d))) =? u32 (numBlocks d - 1));
    reflexivity.
Qed.

(** X23.  The sentinel test, where it is reached.  When the block is not
    inside the unit that [currentBlock] names and the table entry of its unit
    is a sentinel, the read reports success exactly when the unit is the last
    one, and leaves the output as it was in both cases. *)
Theorem npdrm_sentinel_on_miss (d : t) (b : Z) (out : list byte) :
  0 < blockLBAs d -> 0 <= b < 2 ^ 31 -> 0 <= numBlocks d < 2 ^ 32 ->
  cache_hit d b = false ->
  unk_1c (table_at d (Z.quot b (blockLBAs d))) <> 0 ->
  fst (fst (ReadBlock d b out)) = (Z.quot b (blockLBAs d) =? numBlocks d - 1) /\
  snd (fst (ReadBlock d b out)) = out.
Proof.
  intros HL Hb Hnb Hmiss Hunk.
  destruct (unit_of_block (blockLBAs d) b HL Hb) as (_ & Hq & _).
  assert (Hs : s32 (Z.quot b (blockLBAs d)) = Z.quot b (blockLBAs d))
    by (apply s32_small; lia).
  rewrite ReadBlock_sentinel by (try rewrite Hs; assumption).
  cbn [fst snd]. split; [|reflexivity].
  rewrite Hs, (u32_small (Z.quot b (blockLBAs d))) by lia.
  destruct (Z.eq_dec (numBlocks d) 0) as [E0|E0].
  - rewrite E0. change (u32 (0 - 1)) with (2 ^ 32 - 1).
    destruct (Z.eqb_spec (Z.quot b (blockLBAs d)) (2 ^ 32 - 1));
      destruct (Z.eqb_spec (Z.quot b (blockLBAs d)) (0 - 1)); lia || reflexivity.
  - rewrite (u32_small (numBlocks d - 1)) by lia. reflexivity.
Qed.

End NPDRMFacts.

(** ** The factory *)

Section FactoryFacts.
Context {host : Host} {zlib : Zlib} {kirk : Kirk} {lzrc : Lzrc}.

Lemma sniff (u : Uninit) (data magic : list byte) :
  length magic = 4%nat ->
  memcmp4_eq (overwrite (alloc (u_buffer u) 4) (firstn 4 data)) magic
  && (Z.of_nat (length (firstn 4 data)) =? 4)
  = first4_is data magic.
Proof.
  intros Hm. unfold first4_is, memcmp4_eq.
  rewrite (firstn_all2 (n := 4) magic) by lia.
  set (got := firstn 4 data).
  destruct (Z.eqb_spec (Z.of_nat (length got)) 4) as [E|E].
  - rewrite andb_true_r.
    assert (H4 : length got = 4%nat) by lia.
    unfold overwrite.
    rewrite firstn_app, H4, Nat.sub_diag, firstn_O, app_nil_r.
    rewrite (firstn_all2 got) by lia. reflexivity.
  - rewrite andb_false_r.
    destruct (list_eq_dec byte_eq_dec got magic) as [Heq|]; [|reflexivity].
    exfalso. apply E. rewrite Heq, Hm. reflexivity.
Qed.

(** C9.  The factory produces no device when the resource cannot be
    opened; otherwise it looks at the first four bytes only and builds the
    CISO device when they are ["CISO"], the NPDRM device when they are
    [0x00 'P' 'B' 'P'], the plain device in every other case, each on the
    resource rewound to its start. *)
Theorem constructBlockDevice_selects (u : Uninit) (filename : String.string) :
  constructBlockDevice u filename =
  match OpenCFile filename with
  | None => None
  | Some data =>
      let f := mkFILE data 0 in
      if first4_is data magic_CISO then
        Some (IsCISO (CISOFileBlockDevice.new u f))
      else if first4_is data magic_PBP then
        Some (IsNPDRM (NPDRMDemoBlockDevice.new u f))
      else
        Some (IsFile (FileBlockDevice.new f))
  end.
Proof.
  unfold constructBlockDevice.
  destruct (OpenCFile filename) as [data|]; [|reflexivity].
  pose proof (sniff u data magic_CISO eq_refl) as HC.
  pose proof (sniff u data magic_PBP eq_refl) as HP.
  change (fread 4 (mkFILE data 0))
    with (firstn 4 data,
          mkFILE data (0 + Z.of_nat (length (firstn 4 data)))).
  cbv iota beta zeta. rewrite HC, HP.
  rewrite fseek_set_nonneg by lia. reflexivity.
Qed.

End FactoryFacts.

(** ** What a read leaves in the output buffer *)

Section OutputFacts.
Context {zlib : Zlib} {kirk : Kirk} {lzrc : Lzrc}.

Lemma written_by_File (d : FileBlockDevice.t) (n : Z) (out : list byte) :
  written_by (IsFile d) n out = snd (fst (FileBlockDevice.ReadBlock d n out)) /\
  result_of (IsFile d) n out = fst (fst (FileBlockDevice.ReadBlock d n out)).
Proof.
  unfold written_by, result_of, BlockDevice_ReadBlock.
  destruct (FileBlockDevice.ReadBlock d n out) as [[ok o] d']. split; reflexivity.
Qed.

Lemma written_by_CISO (d : CISOFileBlockDevice.t) (n : Z) (out : list byte) :
  written_by (IsCISO d) n out = snd (fst (CISOFileBlockDevice.ReadBlock d n out)) /\
  result_of (IsCISO d) n out = fst (fst (CISOFileBlockDevice.ReadBlock d n out)).
Proof.
  unfold written_by, result_of, BlockDevice_ReadBlock.
  destruct (CISOFileBlockDevice.ReadBlock d n out) as [[ok o] d'].
  split; reflexivity.
Qed.

Lemma written_by_NPDRM (d : NPDRMDemoBlockDevice.t) (n : Z) (out : list byte) :
  written_by (IsNPDRM d) n out = snd (fst (NPDRMDemoBlockDevice.ReadBlock d n out)) /\
  result_of (IsNPDRM d) n out = fst (fst (NPDRMDemoBlockDevice.ReadBlock d n out)).
Proof.
  unfold written_by, result_of, BlockDevice_ReadBlock.
  destruct (NPDRMDemoBlockDevice.ReadBlock d n out) as [[ok o] d'].
  split; reflexivity.
Qed.

Lemma fully_written_ext (rd rd' : list byte -> list byte) :
  (forall out, rd' out = rd out) -> fully_written rd -> fully_written rd'.
Proof.
  intros He (data & Hd & H). exists data. split; [exact Hd|].
  intros out. rewrite He. apply H.
Qed.

End OutputFacts.

(** ** The sample images *)

Example sample_ciso_geometry :
  CISOFileBlockDevice.frameSize Samples.ciso_device = 4096 /\
  CISOFileBlockDevice.blockShift Samples.ciso_device = 1 /\
  CISOFileBlockDevice.numBlocks Samples.ciso_device = 6 /\
  CISOFileBlockDevice.numFrames Samples.ciso_device = 3 /\
  CISOFileBlockDevice.zlibBufferFrame Samples.ciso_device = 3 /\
  CISOFileBlockDevice.index Samples.ciso_device = [40; 4136; 0x80000000 + 8232; 12328].
Proof. vm_compute. repeat split. Qed.

Example sample_npdrm_geometry :
  NPDRMDemoBlockDevice.blockLBAs Samples.npdrm_device = 2 /\
  NPDRMDemoBlockDevice.blockSize Samples.npdrm_device = 4096 /\
  NPDRMDemoBlockDevice.numBlocks Samples.npdrm_device = 3 /\
  NPDRMDemoBlockDevice.lbaSize Samples.npdrm_device = 6 /\
  NPDRMDemoBlockDevice.psarOffset Samples.npdrm_device = 0x28 /\
  NPDRMDemoBlockDevice.currentBlock Samples.npdrm_device = -1 /\
  map NPDRMDemoBlockDevice.unk_1c (NPDRMDemoBlockDevice.table Samples.npdrm_device)
  = [1; 0; 1] /\
  map NPDRMDemoBlockDevice.size (NPDRMDemoBlockDevice.table Samples.npdrm_device)
  = [0; 4096; 0] /\
  NPDRMDemoBlockDevice.blockBuf Samples.npdrm_device = repeat xcc 4096.
Proof. vm_compute. repeat split. Qed.

(** The return after a failed [inflateInit2], which the contract above leaves
    out: on the sample CISO image with a zlib that cannot start, the read of
    block 0 reports failure and the output keeps what it held. *)
Example sample_ciso_init_failure :
  fst (@CISOFileBlockDevice.ReadBlock Samples.failing_zlib Samples.ciso_device 0
         Samples.ones)
  = (false, Samples.ones).
Proof. vm_compute. reflexivity. Qed.

(** ** Instances of the theorems on the sample images *)

(** C8 on the second block of the two-block resource. *)
Lemma plain_read_block_in_range_witness :
  let d := FileBlockDevice.new (mkFILE Samples.plain_image 0) in
  fst (fst (FileBlockDevice.ReadBlock d 1 Samples.zeros)) = true /\
  firstn BLOCK (snd (fst (FileBlockDevice.ReadBlock d 1 Samples.zeros)))
  = firstn BLOCK (skipn (Z.to_nat (1 * 2048)) Samples.plain_image).
Proof.
  intros d.
  apply (plain_read_block_in_range d 1 Samples.zeros).
  - vm_compute. reflexivity.
  - lia.
  - vm_compute. reflexivity.
Defined.

(** C6 at [block_count] of the sample CISO image. *)
Lemma ciso_read_block_out_of_range_witness :
  let d := Samples.ciso_device in
  let r := @CISOFileBlockDevice.ReadBlock Samples.stored_zlib d 6 Samples.ones in
  fst (fst r) = false /\ firstn BLOCK (snd (fst r)) = repeat x00 BLOCK /\ snd r = d.
Proof.
  intros d r.
  apply (@ciso_read_block_out_of_range Samples.stored_zlib d 6 Samples.ones).
  - lia.
  - vm_compute. discriminate.
Defined.

(** C10 on block 4 of the sample CISO image, in the stored frame 2. *)
Lemma ciso_stored_frame_keeps_cache_witness :
  let d := Samples.ciso_device in
  let r := @CISOFileBlockDevice.ReadBlock Samples.stored_zlib d 4 Samples.ones in
  CISOFileBlockDevice.zlibBufferFrame (snd r) = CISOFileBlockDevice.zlibBufferFrame d /\
  CISOFileBlockDevice.zlibBuffer (snd r) = CISOFileBlockDevice.zlibBuffer d /\
  CISOFileBlockDevice.inflateCalls (snd r) = CISOFileBlockDevice.inflateCalls d.
Proof.
  intros d r.
  apply (@ciso_stored_frame_keeps_cache Samples.stored_zlib d 4 Samples.ones).
  vm_compute. reflexivity.
Defined.

(** C3 on the sample NPDRM image, just built: block 0 comes back as
    [0xcc] bytes, the content the unit buffer was allocated with. *)
Lemma fresh_npdrm_block0_taken_from_cache_witness :
  NPDRMDemoBlockDevice.cache_hit Samples.npdrm_device 0 = true /\
  fst (@NPDRMDemoBlockDevice.ReadBlock Samples.null_kirk Samples.copy_lzrc
         Samples.npdrm_device 0 Samples.zeros)
  = (true, repeat xcc 2048).
Proof.
  destruct (@fresh_npdrm_block0_taken_from_cache Samples.null_kirk
              Samples.copy_lzrc Samples.junk (mkFILE Samples.npdrm_image 0)
              Samples.zeros) as [H1 H2].
  - vm_compute. discriminate.
  - split; [exact H1|].
    unfold Samples.npdrm_device. rewrite H2. vm_compute. reflexivity.
Defined.

(** C4 on the sample NPDRM image: block 1 of the sentinel unit 0 fails, then
    block 0 of the same unit is answered from the unit buffer. *)
Lemma npdrm_failed_unit_served_from_cache_witness :
  let rd := @NPDRMDemoBlockDevice.ReadBlock Samples.null_kirk Samples.copy_lzrc in
  let r1 := rd Samples.npdrm_device 1 Samples.zeros in
  r1 = (false, Samples.zeros, snd r1) /\
  NPDRMDemoBlockDevice.cache_hit (snd r1) 0 = true /\
  fst (rd (snd r1) 0 Samples.zeros) = (true, repeat xcc 2048) /\
  snd (rd (snd r1) 0 Samples.zeros) = snd r1.
Proof.
  intros rd r1.
  split; [vm_compute; reflexivity|].
  destruct (@npdrm_failed_unit_served_from_cache Samples.null_kirk
              Samples.copy_lzrc Samples.npdrm_device 1 0 Samples.zeros
              Samples.zeros) as [H1 H2].
  - vm_compute. reflexivity.
  - lia.
  - lia.
  - vm_compute. reflexivity.
  - vm_compute. reflexivity.
  - vm_compute. reflexivity.
  - split; [exact H1|]. subst rd r1. cbv beta. rewrite H2. cbn [fst snd].
    split; [vm_compute|]; reflexivity.
Defined.

(** X23 on the sample NPDRM image: block 1, of the sentinel unit 0 that is
    not the last. *)
Lemma npdrm_sentinel_on_miss_witness :
  fst (@NPDRMDemoBlockDevice.ReadBlock Samples.null_kirk Samples.copy_lzrc
         Samples.npdrm_device 1 Samples.ones)
  = (false, Samples.ones).
Proof.
  destruct (@npdrm_sentinel_on_miss Samples.null_kirk Samples.copy_lzrc
              Samples.npdrm_device 1 Samples.ones) as [H1 H2].
  - vm_compute. reflexivity.
  - lia.
  - vm_compute. split; discriminate || reflexivity.
  - vm_compute. reflexivity.
  - vm_compute. discriminate.
  - rewrite (surjective_pairing (fst _)), H1, H2. vm_compute. reflexivity.
Defined.

(** * Further properties of the devices *)

(** ** The plain device at the end of its resource *)

Lemma skipn_past_end (l : list byte) (k : nat) :
  (length l <= k)%nat -> skipn k l = [].
Proof. intros H. apply skipn_all2. exact H. Qed.

Lemma plain_ReadBlock_value (d : FileBlockDevice.t) (n : Z) (out : list byte) :
  0 <= n < 2 ^ 31 ->
  let avail :=
    firstn BLOCK (skipn (Z.to_nat (n * 2048)) (contents (FileBlockDevice.f d))) in
  FileBlockDevice.ReadBlock d n out
  = (true, overwrite out avail,
     FileBlockDevice.mk
       (mkFILE (contents (FileBlockDevice.f d))
               (n * 2048 + Z.of_nat (length avail)))
       (FileBlockDevice.filesize d)).
Proof.
  intros Hn avail. unfold FileBlockDevice.ReadBlock, GetBlockSize.
  rewrite (u64_small n), (u64_small 2048), (u64_small (n * 2048)),
    (off_t_small (n * 2048)) by lia.
  rewrite fseek_set_nonneg by lia.
  unfold fread. cbn [fst snd contents fpos]. reflexivity.
Qed.

(** X1.  A read of the plain device reports success whatever the resource
    holds: it overwrites the start of the output with the bytes found from
    offset [n * 2048] on, 2048 at most, and keeps the rest of the output;
    at or past the end of the resource the output is left as it was.  The
    resource and the recorded size do not change. *)
Theorem plain_read_short_or_past_end
  (d : FileBlockDevice.t) (n : Z) (out : list byte) :
  0 <= n < 2 ^ 31 ->
  let avail :=
    firstn BLOCK (skipn (Z.to_nat (n * 2048)) (contents (FileBlockDevice.f d))) in
  let r := FileBlockDevice.ReadBlock d n out in
  fst r = (true, avail ++ skipn (length avail) out) /\
  (Z.of_nat (length (contents (FileBlockDevice.f d))) <= n * 2048 ->
   fst r = (true, out)) /\
  contents (FileBlockDevice.f (snd r)) = contents (FileBlockDevice.f d) /\
  FileBlockDevice.filesize (snd r) = FileBlockDevice.filesize d.
Proof.
  intros Hn avail r. unfold r.
  rewrite (plain_ReadBlock_value d n out Hn). fold avail. cbn [fst snd].
  split; [reflexivity|]. split; [|split; reflexivity].
  intros Hend.
  assert (Ha : avail = []).
  { unfold avail. rewrite skipn_past_end by lia. apply firstn_nil. }
  rewrite Ha. reflexivity.
Qed.

(** ** The factory on short resources and on plain images *)

Section MoreFactoryFacts.
Context {host : Host} {zlib : Zlib} {kirk : Kirk} {lzrc : Lzrc}.

Lemma first4_short (data magic : list byte) :
  length magic = 4%nat -> (length data < 4)%nat -> first4_is data magic = false.
Proof.
  intros Hm Hd. unfold first4_is.
  destruct (list_eq_dec byte_eq_dec (firstn 4 data) magic) as [E|]; [|reflexivity].
  exfalso. apply (f_equal (@length byte)) in E.
  rewrite length_firstn, Hm in E. lia.
Qed.

Lemma construct_plain (u : Uninit) (filename : String.string) (data : list byte) :
  OpenCFile filename = Some data ->
  first4_is data magic_CISO = false ->
  first4_is data magic_PBP = false ->
  constructBlockDevice u filename
  = Some (IsFile (FileBlockDevice.new (mkFILE data 0))).
Proof.
  intros Ho HC HP. unfold constructBlockDevice. rewrite Ho.
  change (fread 4 (mkFILE data 0))
    with (firstn 4 data,
          mkFILE data (0 + Z.of_nat (length (firstn 4 data)))).
  cbv iota beta zeta.
  rewrite (sniff u data magic_CISO eq_refl), HC.
  rewrite (sniff u data magic_PBP eq_refl), HP.
  rewrite fseek_set_nonneg by lia. reflexivity.
Qed.

(** X2.  A resource of fewer than four bytes, the empty one included, gives
    the plain device, whatever the never written part of the factory's
    [buffer] holds. *)
Theorem constructBlockDevice_short_resource
  (u : Uninit) (filename : String.string) (data : list byte) :
  OpenCFile filename = Some data ->
  (length data < 4)%nat ->
  constructBlockDevice u filename
  = Some (IsFile (FileBlockDevice.new (mkFILE data 0))).
Proof.
  intros Ho Hd.
  apply construct_plain; [exact Ho | |]; apply first4_short; [reflexivity | exact Hd | reflexivity | exact Hd].
Qed.

(** X3.  Pass-through: for a resource of at least 2048 bytes whose first
    four bytes are neither magic, the device that the factory builds answers
    [ReadBlock(0)] with success and the first 2048 bytes of the resource,
    unmodified. *)
Theorem constructBlockDevice_plain_pass_through
  (u : Uninit) (filename : String.string) (data out : list byte) :
  OpenCFile filename = Some data ->
  first4_is data magic_CISO = false ->
  first4_is data magic_PBP = false ->
  (2048 <= length data)%nat ->
  exists dev,
    constructBlockDevice u filename = Some dev /\
    result_of dev 0 out = true /\
    firstn BLOCK (written_by dev 0 out) = firstn BLOCK data /\
    length (firstn BLOCK data) = BLOCK.
Proof.
  intros Ho HC HP Hlen.
  exists (IsFile (FileBlockDevice.new (mkFILE data 0))).
  split; [apply construct_plain; assumption|].
  assert (Hd : length (firstn BLOCK data) = BLOCK)
    by (rewrite length_firstn; unfold BLOCK; lia).
  unfold result_of, written_by, BlockDevice_ReadBlock.
  rewrite (plain_ReadBlock_value _ 0 out ltac:(lia)).
  cbn [fst snd FileBlockDevice.new FileBlockDevice.f fseek_end fseek_set
         contents Z.ltb Z.compare].
  change (Z.to_nat (0 * 2048)) with 0%nat. rewrite skipn_O.
  split; [reflexivity|]. split; [|exact Hd].
  rewrite overwrite_length_block by exact Hd.
  rewrite firstn_app, Hd, Nat.sub_diag, firstn_O, app_nil_r.
  apply firstn_all2. rewrite Hd. apply Nat.le_refl.
Qed.

End MoreFactoryFacts.

(** ** The geometry that the CISO constructor derives *)

Section MoreCISOFacts.
Context {zlib : Zlib}.
Import CISOFileBlockDevice.

Lemma blockShift_loop_pow2 (fuel : nat) :
  forall k acc, 0 <= k -> (Z.to_nat k < fuel)%nat ->
                blockShift_loop fuel (2048 * 2 ^ k) acc = acc + k.
Proof.
  induction fuel as [|fuel IH]; intros k acc Hk Hf; [lia|].
  cbn [blockShift_loop].
  destruct (Z.eq_dec k 0) as [->|Hne].
  - change (2048 * 2 ^ 0) with 2048. cbn. lia.
  - assert (Hp : 2 ^ k = 2 * 2 ^ (k - 1)).
    { rewrite <- Z.pow_succ_r by lia. f_equal. lia. }
    pose proof (Z.pow_pos_nonneg 2 (k - 1) ltac:(lia) ltac:(lia)) as Hpos.
    destruct (Z.ltb_spec 0x800 (2048 * 2 ^ k)) as [_|Hle]; [|lia].
    replace (Z.shiftr (2048 * 2 ^ k) 1) with (2048 * 2 ^ (k - 1)).
    + rewrite IH by lia. lia.
    + rewrite Z.shiftr_div_pow2 by lia. change (2 ^ 1) with 2.
      rewrite Hp. replace (2048 * (2 * 2 ^ (k - 1))) with (2048 * 2 ^ (k - 1) * 2) by lia.
      rewrite Z.div_mul by lia. reflexivity.
Qed.

Lemma blockShift_loop_small (fuel : nat) (i acc : Z) :
  i <= 2048 -> blockShift_loop fuel i acc = acc.
Proof.
  intros Hi. destruct fuel as [|fuel]; [reflexivity|].
  cbn [blockShift_loop]. destruct (Z.ltb_spec 0x800 i); [lia | reflexivity].
Qed.

Lemma new_blockShift (u : Uninit) (file : FILE) :
  blockShift (new u file) = blockShift_loop 32 (frameSize (new u file)) 0.
Proof.
  unfold new.
  destruct (fread_items 24 1 file) as [[got rs] f1].
  destruct (fread_items 4 _ f1) as [[igot ic] f2].
  reflexivity.
Qed.

(** X4.  The constructor's shift loop inverts the frame size: for a header
    whose frame size is [2048 * 2^k], [blockShift] is [k], so that
    [frameSize = 2048 << blockShift]; a frame size of at most one block
    gives [blockShift = 0]. *)
Theorem ciso_new_blockShift (u : Uninit) (file : FILE) (k : Z) :
  0 <= k <= 20 ->
  (frameSize (new u file) = 2048 * 2 ^ k ->
   blockShift (new u file) = k /\
   Z.shiftl 2048 (blockShift (new u file)) = frameSize (new u file)) /\
  (frameSize (new u file) <= 2048 -> blockShift (new u file) = 0).
Proof.
  intros Hk. rewrite new_blockShift. split.
  - intros Hfs. rewrite Hfs, blockShift_loop_pow2 by (cbn; lia).
    split; [lia|]. rewrite Z.shiftl_mul_pow2 by lia. reflexivity.
  - intros Hfs. apply blockShift_loop_small. exact Hfs.
Qed.

Lemma words_of_length (n : nat) : forall l, length (words_of n l) = n.
Proof.
  induction n as [|n IH]; intros l; [reflexivity|].
  cbn [words_of length]. rewrite IH. reflexivity.
Qed.

Lemma div4_lt (a b : Z) : 0 <= a < 4 * b -> a / 4 < b.
Proof. intros H. apply Z.div_lt_upper_bound; lia. Qed.

(** X5.  The index table that the constructor builds always has
    [numFrames + 1] entries; when the resource ends before the last of them
    (the header being complete), every entry is zero. *)
Theorem ciso_new_index (u : Uninit) (data : list byte) :
  let d := new u (mkFILE data 0) in
  let indexSize := u32 (numFrames d + 1) in
  length (index d) = Z.to_nat indexSize /\
  ((24 <= length data)%nat ->
   Z.of_nat (length data) < 24 + 4 * indexSize ->
   index d = repeat 0 (Z.to_nat indexSize)).
Proof.
  unfold new, fread_items, fread. cbn [contents fpos].
  cbv beta iota zeta. cbn [index numFrames].
  match goal with
  | |- context [u32 (?nf + 1)] => set (isz := u32 (nf + 1))
  end.
  assert (Hisz : 0 <= isz) by (apply Z.mod_pos_bound; lia).
  split.
  - match goal with
    | |- context [if ?c then _ else _] => destruct c
    end; [apply words_of_length | apply repeat_length].
  - intros H24 Hshort.
    match goal with
    | |- context [if ?c then _ else _] => destruct c eqn:E
    end; [exfalso | reflexivity].
    apply Z.eqb_eq in E. revert E.
    repeat (rewrite length_firstn || rewrite length_skipn).
    change (Z.to_nat 0) with 0%nat. change (Z.to_nat (24 * 1)) with 24%nat.
    match goal with
    | |- ?x / 4 = _ -> False =>
        intros E; assert (Hlt : x / 4 < isz) by (apply div4_lt; lia)
    end.
    lia.
Qed.

(** ** What a CISO read keeps, and what it hands out *)

Lemma ReadBlock_same_image (d : t) (n : Z) (out : list byte) :
  same_image d (snd (ReadBlock d n out)) /\
  numFrames (snd (ReadBlock d n out)) = numFrames d.
Proof.
  unfold ReadBlock, same_image, fread. cbv beta iota zeta.
  repeat match goal with
         | |- context [let '(_, _) := ?e in _] => destruct e
         | |- context [if ?c then _ else _] => destruct c
         end;
    cbn [snd fst f index indexShift blockShift frameSize numBlocks numFrames
           contents];
    unfold fseek_set;
    repeat match goal with
           | |- context [if ?c then _ else _] => destruct c
           end;
    repeat split.
Qed.

(** X6.  No read, and no sequence of reads, changes what the constructor
    took from the image: the resource, the index table, the two shifts, the
    frame size, the block count and the frame count. *)
Theorem ciso_reads_keep_image (d : t) (blocks : list Z) (out : list byte) :
  same_image d (snd (read_blocks d blocks out)) /\
  numFrames (snd (read_blocks d blocks out)) = numFrames d.
Proof.
  revert d out. induction blocks as [|b rest IH]; intros d out.
  - cbn [read_blocks snd]. unfold same_image. repeat split.
  - cbn [read_blocks].
    pose proof (ReadBlock_same_image d b out) as [Hs Hn].
    destruct (ReadBlock d b out) as [[ok out1] d1]. cbn [snd] in Hs, Hn.
    destruct (IH d1 out1) as [Hs' Hn'].
    destruct Hs as (H1 & H2 & H3 & H4 & H5 & H6).
    destruct Hs' as (H1' & H2' & H3' & H4' & H5' & H6').
    unfold same_image.
    repeat split; etransitivity; eassumption.
Qed.



Lemma frame_number_small (d : t) (b : Z) :
  0 <= b < 2 ^ 31 -> 0 <= blockShift d ->
  u32 (Z.shiftr b (blockShift d)) = Z.shiftr b (blockShift d).
Proof.
  intros Hb Hs. apply u32_small.
  rewrite Z.shiftr_div_pow2 by lia.
  pose proof (Z.pow_pos_nonneg 2 (blockShift d) ltac:(lia) Hs) as Hp.
  split.
  - apply Z.div_pos; lia.
  - apply Z.div_lt_upper_bound; [lia|]. nia.
Qed.


(** X8.  With frames of one block the frame cache is never written: no read
    changes the cached frame number or the cached bytes. *)
Theorem ciso_one_block_frames_never_cache (d : t) (n : Z) (out : list byte) :
  frameSize d = GetBlockSize ->
  zlibBufferFrame (snd (ReadBlock d n out)) = zlibBufferFrame d /\
  zlibBuffer (snd (ReadBlock d n out)) = zlibBuffer d.
Proof.
  intros Hfs. unfold ReadBlock. rewrite Hfs, Z.eqb_refl. cbv beta iota zeta.
  cbn [negb].
  repeat match goal with
         | |- context [let '(_, _) := ?e in _] => destruct e
         | |- context [if ?c then _ else _] => destruct c
         end;
    cbn [snd zlibBufferFrame zlibBuffer]; split; reflexivity.
Qed.

(** The last branch of [ReadBlock], in terms of the frame's input and of
    what [inflate] makes of it. *)
Lemma ReadBlock_miss_value (d : t) (b : Z) (out : list byte) :
  inflateInit2 = Z_OK ->
  0 <= b < numBlocks d -> b < 2 ^ 31 -> 0 <= blockShift d ->
  Z.testbit (index_at d (Z.shiftr b (blockShift d))) 31 = false ->
  zlibBufferFrame d <> Z.shiftr b (blockShift d) ->
  framePos d (Z.shiftr b (blockShift d)) < 2 ^ 63 ->
  let F := Z.shiftr b (blockShift d) in
  let frame := frame_data d F in
  let direct := frameSize d =? GetBlockSize in
  let ok := (fst (inflate (frame_input d F) (frameSize d)) =? Z_STREAM_END)
            && (Z.of_nat (length frame) =? frameSize d) in
  let out1 := if direct then overwrite out frame else out in
  let zb := if direct then zlibBuffer d else overwrite (zlibBuffer d) frame in
  fst (ReadBlock d b out)
  = (ok, if ok
         then (if direct then out1
               else overwrite out1 (slice zb (compressedOffset d b) BLOCK))
         else memset0 out1 BLOCK) /\
  zlibBuffer (snd (ReadBlock d b out)) = zb /\
  zlibBufferFrame (snd (ReadBlock d b out))
  = (if ok && negb direct then F else zlibBufferFrame d) /\
  inflateCalls (snd (ReadBlock d b out)) = S (inflateCalls d).
Proof.
  intros Hinit Hb Hbi Hs Hbit Hc Hpos F frame direct ok out1 zb.
  subst frame direct ok out1 zb. unfold frame_data, frame_input.
  unfold framePos in Hpos. fold F in Hbit, Hc, Hpos.
  unfold ReadBlock.
  rewrite (u32_small b) by lia.
  destruct (numBlocks d <=? b) eqn:E; [lia|].
  rewrite frame_number_small by lia. fold F.
  rewrite plain_flag, Hbit.
  destruct (zlibBufferFrame d =? F) eqn:EF; [lia|].
  cbv beta iota zeta.
  set (pos := u64 (Z.shiftl (Z.land (index_at d F) 0x7FFFFFFF) (indexShift d))) in *.
  assert (Hp0 : 0 <= pos) by (apply Z.mod_pos_bound; lia).
  rewrite off_t_small by lia.
  rewrite fseek_set_nonneg by lia.
  destruct (fread _ _) as [got f2]. cbn [fst].
  rewrite Hinit, Z.eqb_refl. cbn [negb].
  rewrite (firstn_overwrite (readBuffer d) got) by apply u32_of_nat_le.
  destruct (inflate _ (frameSize d)) as [status produced0]. cbn [fst snd].
  destruct (status =? Z_STREAM_END); cbn [negb andb];
    [|repeat split].
  destruct (Z.of_nat (length (firstn (Z.to_nat (frameSize d)) produced0))
            =? frameSize d); cbn [negb andb]; [|repeat split].
  destruct (frameSize d =? GetBlockSize); cbn [negb andb]; repeat split.
Qed.

Lemma memset0_after (out produced : list byte) :
  (length produced <= BLOCK)%nat ->
  memset0 (overwrite out produced) BLOCK = repeat x00 BLOCK ++ skipn BLOCK out.
Proof.
  intros H. rewrite memset0_block. f_equal. apply skipn_overwrite. exact H.
Qed.

(** X9.  A read that has to decompress a frame whose stream [inflate] does
    not end, or ends with another length than the frame size, reports
    failure and leaves 2048 zero bytes in the output; the cached frame number
    stays, and [inflate] was called once. *)
Theorem ciso_decompress_failure (d : t) (b : Z) (out : list byte) :
  inflateInit2 = Z_OK ->
  0 <= b < numBlocks d -> b < 2 ^ 31 -> 0 <= blockShift d ->
  Z.testbit (index_at d (Z.shiftr b (blockShift d))) 31 = false ->
  zlibBufferFrame d <> Z.shiftr b (blockShift d) ->
  framePos d (Z.shiftr b (blockShift d)) < 2 ^ 63 ->
  frame_decodes d (Z.shiftr b (blockShift d)) = false ->
  fst (ReadBlock d b out) = (false, repeat x00 BLOCK ++ skipn BLOCK out) /\
  zlibBufferFrame (snd (ReadBlock d b out)) = zlibBufferFrame d /\
  inflateCalls (snd (ReadBlock d b out)) = S (inflateCalls d).
Proof.
  intros Hinit Hb Hbi Hs Hbit Hc Hpos Hdec.
  destruct (ReadBlock_miss_value d b out Hinit Hb Hbi Hs Hbit Hc Hpos)
    as (Hv & _ & Hfr & Hcnt).
  cbv zeta in Hv, Hfr.
  assert (Hok : (fst (inflate (frame_input d (Z.shiftr b (blockShift d)))
                        (frameSize d)) =? Z_STREAM_END)
                && (Z.of_nat (length (frame_data d (Z.shiftr b (blockShift d))))
                    =? frameSize d) = false).
  { unfold frame_decodes in Hdec. unfold framePos in Hpos.
    apply Z.ltb_lt in Hpos. rewrite Hpos in Hdec. cbn [andb] in Hdec.
    exact Hdec. }
  rewrite Hok in Hv, Hfr. cbn [andb] in Hfr.
  split; [|split; assumption].
  rewrite Hv. f_equal.
  destruct (Z.eqb_spec (frameSize d) GetBlockSize) as [Ed|Ed];
    [|apply memset0_block].
  apply memset0_after. unfold frame_data. rewrite length_firstn, Ed.
  unfold GetBlockSize, BLOCK. lia.
Qed.

Lemma compressedOffset_mod (d : t) (b : Z) :
  0 <= blockShift d <= 20 -> 0 <= b ->
  compressedOffset d b = (b mod 2 ^ blockShift d) * 2048.
Proof.
  intros Hs Hb. unfold compressedOffset, GetBlockSize.
  rewrite Z.shiftl_1_l.
  assert (Hp : 0 < 2 ^ blockShift d <= 2 ^ 20).
  { split; [apply Z.pow_pos_nonneg; lia|].
    apply Z.pow_le_mono_r; lia. }
  rewrite (s32_small (2 ^ blockShift d)) by lia.
  replace (2 ^ blockShift d - 1) with (Z.ones (blockShift d))
    by (rewrite Z.ones_equiv; lia).
  rewrite Z.land_ones by lia.
  pose proof (Z.mod_pos_bound b (2 ^ blockShift d) ltac:(lia)).
  apply u32_small. lia.
Qed.

Lemma slice_inside (buf frame : list byte) (off : Z) :
  0 <= off -> off + 2048 <= Z.of_nat (length frame) ->
  slice (overwrite buf frame) off BLOCK
  = firstn BLOCK (skipn (Z.to_nat off) frame) /\
  length (firstn BLOCK (skipn (Z.to_nat off) frame)) = BLOCK.
Proof.
  intros H0 Hle.
  assert (Hl : (BLOCK <= length (skipn (Z.to_nat off) frame))%nat)
    by (rewrite length_skipn; unfold BLOCK; lia).
  split; [|rewrite length_firstn; lia].
  unfold slice, resize, overwrite.
  rewrite skipn_app, <- app_assoc, firstn_app.
  replace (BLOCK - length (skipn (Z.to_nat off) frame))%nat with 0%nat by lia.
  rewrite firstn_O, app_nil_r. reflexivity.
Qed.

(** X10.  Functional correctness of a decompressing read.  With frames of
    [2048 * 2^blockShift] bytes, a read of an in-range block [b] of a
    compressed, well-formed frame that is not in the cache reports success
    and hands out the 2048 bytes of the decompressed frame at offset
    [(b mod 2^blockShift) * 2048]. *)
Theorem ciso_decompressed_block (d : t) (b : Z) (out : list byte) :
  inflateInit2 = Z_OK ->
  0 <= blockShift d <= 20 -> frameSize d = 2048 * 2 ^ blockShift d ->
  0 <= b < numBlocks d -> b < 2 ^ 31 ->
  Z.testbit (index_at d (Z.shiftr b (blockShift d))) 31 = false ->
  zlibBufferFrame d <> Z.shiftr b (blockShift d) ->
  frame_decodes d (Z.shiftr b (blockShift d)) = true ->
  let data :=
    firstn BLOCK
      (skipn (Z.to_nat ((b mod 2 ^ blockShift d) * 2048))
             (frame_data d (Z.shiftr b (blockShift d)))) in
  length data = BLOCK /\
  fst (ReadBlock d b out) = (true, data ++ skipn BLOCK out).
Proof.
  intros Hinit Hs Hfs Hb Hbi Hbit Hc Hdec data.
  set (F := Z.shiftr b (blockShift d)) in *.
  unfold frame_decodes in Hdec.
  apply andb_prop in Hdec. destruct Hdec as [Hdec Hlen].
  apply andb_prop in Hdec. destruct Hdec as [Hpos Hst].
  apply Z.ltb_lt in Hpos. fold (framePos d F) in Hpos.
  fold (frame_data d F) in Hlen.
  destruct (ReadBlock_miss_value d b out Hinit Hb Hbi ltac:(lia) Hbit Hc Hpos)
    as (Hv & _).
  cbv zeta in Hv. fold F in Hv. rewrite Hst, Hlen in Hv. cbn [andb] in Hv.
  apply Z.eqb_eq in Hlen.
  pose proof (Z.pow_pos_nonneg 2 (blockShift d) ltac:(lia) ltac:(lia)) as Hp.
  pose proof (Z.mod_pos_bound b (2 ^ blockShift d) Hp) as Hm.
  destruct (slice_inside (zlibBuffer d) (frame_data d F)
              ((b mod 2 ^ blockShift d) * 2048)) as [Hsl Hd]; [lia | nia |].
  fold data in Hsl, Hd.
  split; [exact Hd|]. rewrite Hv. f_equal.
  destruct (Z.eqb_spec (frameSize d) GetBlockSize) as [Ed|Ed].
  - assert (Hf : length (frame_data d F) = BLOCK)
      by (unfold GetBlockSize in Ed; unfold BLOCK; lia).
    rewrite overwrite_length_block by exact Hf. f_equal.
    assert (H1 : 2 ^ blockShift d = 1) by (unfold GetBlockSize in Ed; lia).
    unfold data. rewrite H1, Z.mod_1_r. cbn [Z.mul Z.to_nat]. rewrite skipn_O.
    symmetry. apply firstn_all2. rewrite Hf. apply Nat.le_refl.
  - rewrite compressedOffset_mod by lia. rewrite Hsl.
    apply overwrite_length_block. exact Hd.
Qed.

(** X11.  The cache answers with the same frame.  With frames of more than
    one block, after a read of block [b] that decompressed its frame, a read
    of any in-range block [b'] of the same frame reports success, hands out
    the 2048 bytes of the same decompressed frame at offset
    [(b' mod 2^blockShift) * 2048], and leaves the device, the number of
    [inflate] calls included, as the first read left it. *)
Theorem ciso_cached_block (d : t) (b b' : Z) (out out' : list byte) :
  inflateInit2 = Z_OK ->
  1 <= blockShift d <= 20 -> frameSize d = 2048 * 2 ^ blockShift d ->
  0 <= b < numBlocks d -> b < 2 ^ 31 ->
  0 <= b' < numBlocks d -> b' < 2 ^ 31 ->
  Z.shiftr b' (blockShift d) = Z.shiftr b (blockShift d) ->
  Z.testbit (index_at d (Z.shiftr b (blockShift d))) 31 = false ->
  zlibBufferFrame d <> Z.shiftr b (blockShift d) ->
  frame_decodes d (Z.shiftr b (blockShift d)) = true ->
  let d1 := snd (ReadBlock d b out) in
  let data :=
    firstn BLOCK
      (skipn (Z.to_nat ((b' mod 2 ^ blockShift d) * 2048))
             (frame_data d (Z.shiftr b (blockShift d)))) in
  length data = BLOCK /\
  ReadBlock d1 b' out' = (true, data ++ skipn BLOCK out', d1).
Proof.
  intros Hinit Hs Hfs Hb Hbi Hb' Hbi' Hsame Hbit Hc Hdec d1 data.
  set (F := Z.shiftr b (blockShift d)) in *.
  pose proof Hdec as Hdec0.
  unfold frame_decodes in Hdec.
  apply andb_prop in Hdec. destruct Hdec as [Hdec Hlen].
  apply andb_prop in Hdec. destruct Hdec as [Hpos Hst].
  apply Z.ltb_lt in Hpos. fold (framePos d F) in Hpos.
  fold (frame_data d F) in Hlen.
  destruct (ReadBlock_miss_value d b out Hinit Hb Hbi ltac:(lia) Hbit Hc Hpos)
    as (_ & Hzb & Hfr & _).
  cbv zeta in Hzb, Hfr. fold F d1 in Hzb, Hfr.
  rewrite Hst, Hlen in Hfr. cbn [andb] in Hfr.
  apply Z.eqb_eq in Hlen.
  pose proof (Z.pow_pos_nonneg 2 (blockShift d) ltac:(lia) ltac:(lia)) as Hp.
  assert (Hp2 : 2 <= 2 ^ blockShift d).
  { change 2 with (2 ^ 1) at 1. apply Z.pow_le_mono_r; lia. }
  destruct (Z.eqb_spec (frameSize d) GetBlockSize) as [Ed|Ed];
    [unfold GetBlockSize in Ed; lia|].
  cbn [negb] in Hfr.
  destruct (ReadBlock_same_image d b out) as [(_ & Hi & _ & Hbs & _ & Hnb) _].
  fold d1 in Hi, Hbs, Hnb.
  pose proof (Z.mod_pos_bound b' (2 ^ blockShift d) Hp) as Hm.
  destruct (slice_inside (zlibBuffer d) (frame_data d F)
              ((b' mod 2 ^ blockShift d) * 2048)) as [Hsl Hd]; [lia | nia |].
  fold data in Hsl, Hd.
  split; [exact Hd|].
  rewrite (ReadBlock_cached d1 b' out').
  - rewrite compressedOffset_mod by (rewrite ?Hbs; lia).
    rewrite Hbs, Hzb, Hsl.
    rewrite overwrite_length_block by exact Hd. reflexivity.
  - rewrite Hnb. exact Hb'.
  - exact Hbi'.
  - rewrite Hbs. lia.
  - rewrite Hbs, Hsame. unfold index_at. rewrite Hi. exact Hbit.
  - rewrite Hbs, Hsame. exact Hfr.
Qed.

End MoreCISOFacts.

(** ** The table of the encrypted demo device, as a whole *)

Lemma descramble_eight (p : list Z) :
  length p = 8%nat ->
  NPDRMDemoBlockDevice.descramble (NPDRMDemoBlockDevice.descramble p) = p.
Proof.
  intros H.
  do 8 (destruct p as [|? p]; [discriminate H|]).
  destruct p; [|discriminate H]. apply descramble_twice.
Qed.

(** X12.  Descrambling a whole table of [n] entries keeps its [8 * n] words
    in number and, applied a second time, gives the table back. *)
Theorem descramble_loop_involutive (n : nat) (p : list Z) :
  length p = (8 * n)%nat ->
  length (NPDRMDemoBlockDevice.descramble_loop n p) = (8 * n)%nat /\
  NPDRMDemoBlockDevice.descramble_loop n
    (NPDRMDemoBlockDevice.descramble_loop n p) = p.
Proof.
  revert p. induction n as [|n IH]; intros p Hp.
  - destruct p; [split; reflexivity | discriminate Hp].
  - cbn [NPDRMDemoBlockDevice.descramble_loop].
    destruct (IH (skipn 8 p)) as [IHl IHr]; [rewrite length_skipn; lia|].
    set (A := NPDRMDemoBlockDevice.descramble (firstn 8 p)) in *.
    assert (HA : length A = 8%nat) by reflexivity.
    split.
    + rewrite length_app, HA, IHl. lia.
    + rewrite firstn_app, HA, Nat.sub_diag, firstn_O, app_nil_r.
      rewrite (firstn_all2 (n := 8) A) by lia.
      rewrite skipn_app, HA, Nat.sub_diag, skipn_O.
      rewrite (skipn_all2 (n := 8) A) by lia. cbn [app].
      unfold A. rewrite descramble_eight by (rewrite length_firstn; lia).
      rewrite IHr. apply firstn_skipn.
Qed.

(** ** The unit cache of the encrypted demo device, when it works *)

Section MoreNPDRMFacts.
Context {kirk : Kirk} {lzrc : Lzrc}.
Import NPDRMDemoBlockDevice.

(** X13.  On a device just built the first read, of block [b], takes the
    cache-hit path exactly when [b + 1 < blockLBAs]: every block from
    [blockLBAs - 1] on is fetched. *)
Theorem fresh_npdrm_first_read (u : Uninit) (file : FILE) (b : Z) :
  0 <= b < 2 ^ 31 - 1 ->
  cache_hit (new u file) b = (b + 1 <? blockLBAs (new u file)).
Proof.
  intros Hb. unfold cache_hit. rewrite new_currentBlock.
  rewrite s32_small by lia.
  replace (b - -1) with (b + 1) by lia.
  destruct (Z.leb_spec 0 (b + 1)); [reflexivity | lia].
Qed.

(** X14.  No read changes the resource, the geometry, the keys or the
    table. *)
Theorem npdrm_read_keeps_image (d : t) (n : Z) (out : list byte) :
  same_image d (snd (ReadBlock d n out)).
Proof.
  unfold ReadBlock, same_image, fread. cbv beta iota zeta.
  repeat match goal with
         | |- context [let '(_, _) := ?e in _] => destruct e
         | |- context [if ?c then _ else _] => destruct c
         end;
    cbn [snd fst f lbaSize psarOffset blockSize blockLBAs numBlocks vkey hkey
           table contents];
    unfold fseek_set;
    repeat match goal with
           | |- context [if ?c then _ else _] => destruct c
           end;
    repeat split.
Qed.

Lemma firstn_overwrite_len (dst data : list byte) (n : nat) :
  length data = n -> firstn n (overwrite dst data) = data.
Proof.
  intros <-. unfold overwrite.
  rewrite firstn_app, Nat.sub_diag, firstn_O, app_nil_r. apply firstn_all.
Qed.

Lemma overwrite_overwrite (dst a b : list byte) :
  length b = length a -> overwrite (overwrite dst a) b = overwrite dst b.
Proof.
  intros H. unfold overwrite. f_equal. rewrite H.
  rewrite skipn_app, Nat.sub_diag, skipn_O.
  rewrite (skipn_all2 a) by apply Nat.le_refl. reflexivity.
Qed.

(** The paths of [ReadBlock] past the first branch, in terms of what the
    fetch reads and of what becomes of it. *)
Lemma ReadBlock_fetch_value (d : t) (b : Z) (out : list byte) :
  cache_hit d b = false ->
  let block := s32 (Z.quot b (blockLBAs d)) in
  let e := table_at d block in
  let last := u32 block =? u32 (numBlocks d - 1) in
  fst (ReadBlock d b out)
  = (if negb (unk_1c e =? 0) then (last, out)
     else if negb (Z.of_nat (length (unit_read d block)) =? size_t (size e))
     then (last, out)
     else if (size e <? blockSize d)
             && negb (fst (lzrc_decompress 0x00100000 (unit_payload d block))
                      =? blockSize d)
     then (false, out)
     else (true,
           overwrite out
             (slice (overwrite (blockBuf d) (unit_data d block))
                    (Z.rem b (blockLBAs d) * 2048) BLOCK))) /\
  (fetch_ok d block = true ->
   blockBuf (snd (ReadBlock d b out))
   = overwrite (blockBuf d) (unit_data d block)).
Proof.
  intros Hmiss block e last. subst last.
  unfold fetch_ok, unit_data, unit_payload, unit_read. fold e.
  unfold cache_hit in Hmiss. unfold ReadBlock. cbv zeta in Hmiss |- *.
  rewrite Hmiss. fold block. fold e.
  destruct (unk_1c e =? 0); cbn [negb andb].
  2:{ split; [|discriminate].
      destruct (u32 block =? u32 (numBlocks d - 1)); reflexivity. }
  destruct (fread _ _) as [got f2]. cbn [fst].
  destruct (Z.of_nat (length got) =? size_t (size e)); cbn [negb andb].
  2:{ split; [|discriminate].
      destruct (u32 block =? u32 (numBlocks d - 1)); reflexivity. }
  destruct (size e <? blockSize d); cbn [andb].
  - set (payload := if Z.land (flag e) 4 =? 0
                    then resize (length got)
                           (bbcipher (hkey d) (vkey d) (Z.shiftr (offset e) 4) got)
                    else got).
    assert (Hin : firstn (length got)
                    (if Z.land (flag e) 4 =? 0
                     then overwrite (overwrite (tempBuf d) got)
                            (resize (length got)
                               (bbcipher (hkey d) (vkey d)
                                  (Z.shiftr (offset e) 4) got))
                     else overwrite (tempBuf d) got) = payload).
    { unfold payload. destruct (Z.land (flag e) 4 =? 0).
      - apply firstn_overwrite_len. apply resize_length.
      - apply firstn_overwrite_len. reflexivity. }
    rewrite Hin.
    destruct (lzrc_decompress 1048576 payload) as [lzsize written].
    cbn [fst snd].
    destruct (lzsize =? blockSize d); cbn [negb];
      (split; [reflexivity | intros _; reflexivity || discriminate]).
  - assert (Hbuf : (if Z.land (flag e) 4 =? 0
                    then overwrite (overwrite (blockBuf d) got)
                           (resize (length got)
                              (bbcipher (hkey d) (vkey d)
                                 (Z.shiftr (offset e) 4) got))
                    else overwrite (blockBuf d) got)
                   = overwrite (blockBuf d)
                       (if Z.land (flag e) 4 =? 0
                        then resize (length got)
                               (bbcipher (hkey d) (vkey d)
                                  (Z.shiftr (offset e) 4) got)
                        else got)).
    { destruct (Z.land (flag e) 4 =? 0); [|reflexivity].
      apply overwrite_overwrite. apply resize_length. }
    rewrite Hbuf. cbn [fst snd blockBuf]. split; [reflexivity|].
    intros _. reflexivity.
Qed.

Lemma last_unit_test (d : t) (b : Z) :
  0 < blockLBAs d -> 0 <= b < 2 ^ 31 -> 0 <= numBlocks d < 2 ^ 32 ->
  s32 (Z.quot b (blockLBAs d)) = Z.quot b (blockLBAs d) /\
  (u32 (Z.quot b (blockLBAs d)) =? u32 (numBlocks d - 1))
  = (Z.quot b (blockLBAs d) =? numBlocks d - 1).
Proof.
  intros HL Hb Hnb.
  destruct (unit_of_block (blockLBAs d) b HL Hb) as (_ & Hq & _).
  split; [apply s32_small; lia|].
  rewrite (u32_small (Z.quot b (blockLBAs d))) by lia.
  destruct (Z.eq_dec (numBlocks d) 0) as [E0|E0].
  - rewrite E0. change (u32 (0 - 1)) with (2 ^ 32 - 1).
    destruct (Z.eqb_spec (Z.quot b (blockLBAs d)) (2 ^ 32 - 1));
      destruct (Z.eqb_spec (Z.quot b (blockLBAs d)) (0 - 1)); lia || reflexivity.
  - rewrite (u32_small (numBlocks d - 1)) by lia. reflexivity.
Qed.

(** X15.  Short unit read.  When the block is not inside the unit that
    [currentBlock] names, its unit's entry is no sentinel and the resource
    does not hold the entry's [size] bytes at the entry's offset, the read
    reports success exactly when the unit is the last one, and leaves the
    output as it was in both cases. *)
Theorem npdrm_short_unit_read (d : t) (b : Z) (out : list byte) :
  0 < blockLBAs d -> 0 <= b < 2 ^ 31 -> 0 <= numBlocks d < 2 ^ 32 ->
  cache_hit d b = false ->
  unk_1c (table_at d (Z.quot b (blockLBAs d))) = 0 ->
  Z.of_nat (length (unit_read d (Z.quot b (blockLBAs d))))
  <> size_t (size (table_at d (Z.quot b (blockLBAs d)))) ->
  fst (ReadBlock d b out) = (Z.quot b (blockLBAs d) =? numBlocks d - 1, out).
Proof.
  intros HL Hb Hnb Hmiss Hunk Hshort.
  destruct (last_unit_test d b HL Hb Hnb) as [Hs Hlast].
  destruct (ReadBlock_fetch_value d b out Hmiss) as [Hv _].
  cbv zeta in Hv. rewrite Hs in Hv. rewrite Hv, Hunk, Hlast.
  cbn [Z.eqb negb].
  destruct (Z.eqb_spec
              (Z.of_nat (length (unit_read d (Z.quot b (blockLBAs d)))))
              (size_t (size (table_at d (Z.quot b (blockLBAs d))))));
    [contradiction | reflexivity].
Qed.

(** X16.  LZRC mismatch.  When the unit of a block outside the cached unit
    is compressed (the entry's size is below the unit size), was read in
    full, and the LZRC decompressor returns another length than the unit
    size, the read reports failure, the last unit included, and leaves the
    output as it was. *)
Theorem npdrm_lzrc_mismatch (d : t) (b : Z) (out : list byte) :
  0 < blockLBAs d -> 0 <= b < 2 ^ 31 ->
  cache_hit d b = false ->
  let block := Z.quot b (blockLBAs d) in
  unk_1c (table_at d block) = 0 ->
  Z.of_nat (length (unit_read d block)) = size_t (size (table_at d block)) ->
  size (table_at d block) < blockSize d ->
  fst (lzrc_decompress 0x00100000 (unit_payload d block)) <> blockSize d ->
  fst (ReadBlock d b out) = (false, out).
Proof.
  intros HL Hb Hmiss block Hunk Hfull Hsmall Hlz.
  destruct (unit_of_block (blockLBAs d) b HL Hb) as (_ & Hq & _).
  assert (Hs : s32 (Z.quot b (blockLBAs d)) = block)
    by (apply s32_small; unfold block; lia).
  destruct (ReadBlock_fetch_value d b out Hmiss) as [Hv _].
  cbv zeta in Hv. rewrite Hs in Hv. rewrite Hv, Hunk, Hfull, !Z.eqb_refl.
  cbn [negb].
  destruct (Z.ltb_spec (size (table_at d block)) (blockSize d)); [|lia].
  destruct (Z.eqb_spec (fst (lzrc_decompress 1048576 (unit_payload d block)))
                       (blockSize d)); [contradiction | reflexivity].
Qed.

Lemma fetch_ok_value (d : t) (b : Z) (out : list byte) :
  0 < blockLBAs d -> 0 <= b < 2 ^ 31 ->
  cache_hit d b = false ->
  fetch_ok d (Z.quot b (blockLBAs d)) = true ->
  fst (ReadBlock d b out)
  = (true,
     overwrite out
       (slice (overwrite (blockBuf d) (unit_data d (Z.quot b (blockLBAs d))))
              (Z.rem b (blockLBAs d) * 2048) BLOCK)) /\
  blockBuf (snd (ReadBlock d b out))
  = overwrite (blockBuf d) (unit_data d (Z.quot b (blockLBAs d))).
Proof.
  intros HL Hb Hmiss Hok.
  destruct (unit_of_block (blockLBAs d) b HL Hb) as (_ & Hq & _).
  assert (Hs : s32 (Z.quot b (blockLBAs d)) = Z.quot b (blockLBAs d))
    by (apply s32_small; lia).
  destruct (ReadBlock_fetch_value d b out Hmiss) as [Hv Hb'].
  cbv zeta in Hv, Hb'. rewrite Hs in Hv, Hb'.
  split; [|apply Hb'; exact Hok].
  rewrite Hv. unfold fetch_ok in Hok.
  apply andb_prop in Hok. destruct Hok as [Hok H3].
  apply andb_prop in Hok. destruct Hok as [H1 H2].
  rewrite H1, H2. cbn [negb].
  destruct (size (table_at d (Z.quot b (blockLBAs d))) <? blockSize d);
    [rewrite H3|]; reflexivity.
Qed.

Lemma rem_in_unit (L b : Z) :
  0 < L -> 0 <= b ->
  0 <= Z.rem b L < L /\ b - Z.quot b L * L = Z.rem b L.
Proof.
  intros HL Hb. rewrite Z.rem_mod_nonneg, Z.quot_div_nonneg by lia.
  pose proof (Z.mod_pos_bound b L HL). pose proof (Z.div_mod b L ltac:(lia)).
  split; lia.
Qed.

(** X17.  Functional correctness of a fetch.  When the block is not inside
    the unit that [currentBlock] names and the fetch of its unit goes
    through with at least a whole unit of data, the read reports success and
    hands out the 2048 bytes of the unit's data at offset
    [(b rem blockLBAs) * 2048]; the data is then at the start of
    [blockBuf]. *)
Theorem npdrm_fetched_block (d : t) (b : Z) (out : list byte) :
  0 < blockLBAs d -> 0 <= b < 2 ^ 31 ->
  cache_hit d b = false ->
  let block := Z.quot b (blockLBAs d) in
  fetch_ok d block = true ->
  blockLBAs d * 2048 <= Z.of_nat (length (unit_data d block)) ->
  let data :=
    firstn BLOCK
      (skipn (Z.to_nat (Z.rem b (blockLBAs d) * 2048)) (unit_data d block)) in
  length data = BLOCK /\
  fst (ReadBlock d b out) = (true, data ++ skipn BLOCK out) /\
  blockBuf (snd (ReadBlock d b out)) = overwrite (blockBuf d) (unit_data d block).
Proof.
  intros HL Hb Hmiss block Hok Hlen data.
  destruct (fetch_ok_value d b out HL Hb Hmiss Hok) as [Hv Hbuf].
  destruct (rem_in_unit (blockLBAs d) b HL ltac:(lia)) as [Hr _].
  destruct (slice_inside (blockBuf d) (unit_data d block)
              (Z.rem b (blockLBAs d) * 2048)) as [Hsl Hd]; [lia | nia |].
  fold block in Hv. fold data in Hsl, Hd.
  split; [exact Hd|]. split; [|exact Hbuf].
  rewrite Hv, Hsl. rewrite overwrite_length_block by exact Hd. reflexivity.
Qed.

(** X18.  The cache answers with the same unit.  After a read of block [b]
    that fetched its unit as in X17, a read of any block [b'] of the same
    unit reports success, hands out the 2048 bytes of the same unit data at
    offset [(b' rem blockLBAs) * 2048], and leaves the device as the fetch
    left it: nothing is read from the resource. *)
Theorem npdrm_cached_block (d : t) (b b' : Z) (out out' : list byte) :
  0 < blockLBAs d -> 0 <= b < 2 ^ 31 -> 0 <= b' < 2 ^ 31 ->
  Z.quot b' (blockLBAs d) = Z.quot b (blockLBAs d) ->
  cache_hit d b = false ->
  let block := Z.quot b (blockLBAs d) in
  fetch_ok d block = true ->
  blockLBAs d * 2048 <= Z.of_nat (length (unit_data d block)) ->
  let d1 := snd (ReadBlock d b out) in
  let data :=
    firstn BLOCK
      (skipn (Z.to_nat (Z.rem b' (blockLBAs d) * 2048)) (unit_data d block)) in
  length data = BLOCK /\
  ReadBlock d1 b' out' = (true, data ++ skipn BLOCK out', d1).
Proof.
  intros HL Hb Hb' Hq Hmiss block Hok Hlen d1 data.
  destruct (fetch_ok_value d b out HL Hb Hmiss Hok) as [_ Hbuf].
  fold block d1 in Hbuf.
  destruct (ReadBlock_miss_state d b out Hmiss) as (Hc & _).
  cbv zeta in Hc. fold d1 in Hc.
  destruct (unit_of_block (blockLBAs d) b HL Hb) as (Hcur & Hq0 & _).
  rewrite Hcur in Hc.
  destruct (rem_in_unit (blockLBAs d) b' HL ltac:(lia)) as [Hr Hrem].
  rewrite Hq in Hrem.
  assert (Hrb : Z.rem b' (blockLBAs d) <= b') by nia.
  destruct (slice_inside (blockBuf d) (unit_data d block)
              (Z.rem b' (blockLBAs d) * 2048)) as [Hsl Hd]; [lia | nia |].
  fold data in Hsl, Hd.
  split; [exact Hd|].
  rewrite (ReadBlock_hit d1 b' out')
    by (apply same_unit_hits; assumption).
  rewrite Hc, Hrem, Hbuf.
  rewrite (s32_small (Z.rem b' (blockLBAs d))) by lia.
  rewrite Hsl. rewrite overwrite_length_block by exact Hd. reflexivity.
Qed.

End MoreNPDRMFacts.

(** ** What the constructors establish *)

Lemma le_word_nonneg (n : nat) : forall l, 0 <= le_word n l.
Proof.
  induction n as [|n IH]; intros l; [cbn; lia|].
  cbn [le_word]. destruct l as [|b r]; [lia|].
  specialize (IH r). unfold byte_val. lia.
Qed.

Section ConstructorFacts.
Context {zlib : Zlib} {kirk : Kirk} {lzrc : Lzrc}.

Lemma ciso_new_counts (u : Uninit) (file : FILE) :
  let d := CISOFileBlockDevice.new u file in
  let total := CISOFileBlockDevice.header_total_bytes u file in
  let fs := CISOFileBlockDevice.frameSize d in
  CISOFileBlockDevice.numBlocks d = u32 (total / GetBlockSize) /\
  CISOFileBlockDevice.numFrames d = u32 (u64 (total + fs - 1) / fs) /\
  CISOFileBlockDevice.zlibBufferFrame d = CISOFileBlockDevice.numFrames d /\
  CISOFileBlockDevice.inflateCalls d = 0%nat.
Proof.
  unfold CISOFileBlockDevice.new, CISOFileBlockDevice.header_total_bytes.
  destruct (fread_items 24 1 file) as [[got rs] f1].
  destruct (fread_items 4 _ f1) as [[igot ic] f2].
  cbn. repeat split.
Qed.

(** X19.  A CISO device just built has nothing in its cache.  For a header
    with a frame size of [2048 * 2^s] and less than [2^42] bytes in total,
    the frame of every in-range block is below [numFrames], the value that
    the constructor gives [zlibBufferFrame]; so no first read is answered
    from the never written cache. *)
Theorem ciso_new_nothing_cached (u : Uninit) (file : FILE) (s b : Z) :
  let d := CISOFileBlockDevice.new u file in
  0 <= s <= 20 ->
  CISOFileBlockDevice.frameSize d = 2048 * 2 ^ s ->
  CISOFileBlockDevice.header_total_bytes u file < 2 ^ 42 ->
  0 <= b < CISOFileBlockDevice.numBlocks d ->
  Z.shiftr b (CISOFileBlockDevice.blockShift d) < CISOFileBlockDevice.numFrames d /\
  CISOFileBlockDevice.zlibBufferFrame d
  <> Z.shiftr b (CISOFileBlockDevice.blockShift d).
Proof.
  intros d Hs Hfs Htot Hb.
  destruct (ciso_new_counts u file) as (Hnb & Hnf & Hz & _).
  fold d in Hnb, Hnf, Hz.
  set (total := CISOFileBlockDevice.header_total_bytes u file) in *.
  assert (Ht0 : 0 <= total).
  { unfold total, CISOFileBlockDevice.header_total_bytes.
    destruct (fread_items 24 1 file) as [[got rs] f1]. apply le_word_nonneg. }
  assert (Hsh : CISOFileBlockDevice.blockShift d = s).
  { unfold d. rewrite new_blockShift. fold d. rewrite Hfs.
    rewrite blockShift_loop_pow2 by (cbn; lia). lia. }
  pose proof (Z.pow_pos_nonneg 2 s ltac:(lia) ltac:(lia)) as Hp.
  assert (Hp20 : 2 ^ s <= 2 ^ 20) by (apply Z.pow_le_mono_r; lia).
  unfold GetBlockSize in Hnb.
  assert (Hq : 0 <= total / 2048 < 2 ^ 31).
  { split; [apply Z.div_pos; lia|]. apply Z.div_lt_upper_bound; lia. }
  rewrite (u32_small (total / 2048)) in Hnb by lia.
  rewrite Hnb in Hb.
  assert (Hb2 : b * 2048 + 2048 <= total).
  { pose proof (Z.mul_div_le total 2048 ltac:(lia)). lia. }
  rewrite Hfs in Hnf.
  rewrite (u64_small (total + 2048 * 2 ^ s - 1)) in Hnf by lia.
  set (fs := 2048 * 2 ^ s) in *.
  set (q := Z.shiftr b (CISOFileBlockDevice.blockShift d)).
  assert (Hqv : q = b / 2 ^ s).
  { unfold q. rewrite Hsh. apply Z.shiftr_div_pow2. lia. }
  assert (Hq0 : 0 <= q) by (rewrite Hqv; apply Z.div_pos; lia).
  assert (Hqb : q * 2 ^ s <= b).
  { rewrite Hqv. pose proof (Z.mul_div_le b (2 ^ s) Hp). lia. }
  assert (Hlow : q + 1 <= (total + fs - 1) / fs).
  { apply Z.div_le_lower_bound; [unfold fs; lia|]. unfold fs. nia. }
  assert (Hup : (total + fs - 1) / fs < 2 ^ 32).
  { apply Z.div_lt_upper_bound; [unfold fs; lia|]. unfold fs. nia. }
  assert (Hnf' : CISOFileBlockDevice.numFrames d = (total + fs - 1) / fs).
  { rewrite Hnf. apply u32_small. lia. }
  split; [lia|]. rewrite Hz. lia.
Qed.

(** X20.  A negative block number is refused like one past the end: on a
    CISO device of at most [2^31] blocks the read reports failure, leaves
    2048 zero bytes in the output and does not change the device. *)
Theorem ciso_read_block_negative
  (d : CISOFileBlockDevice.t) (n : Z) (out : list byte) :
  - 2 ^ 31 <= n < 0 -> CISOFileBlockDevice.numBlocks d <= 2 ^ 31 ->
  CISOFileBlockDevice.ReadBlock d n out
  = (false, repeat x00 BLOCK ++ skipn BLOCK out, d).
Proof.
  intros Hn Hnb. unfold CISOFileBlockDevice.ReadBlock.
  assert (Hu : u32 n = n + 2 ^ 32).
  { unfold u32. symmetry. apply (Z.mod_unique n (2 ^ 32) (-1)); lia. }
  rewrite Hu.
  destruct (Z.leb_spec (CISOFileBlockDevice.numBlocks d) (n + 2 ^ 32)); [|lia].
  rewrite memset0_block. reflexivity.
Qed.

Lemma entries_length (n : nat) :
  forall p, length (NPDRMDemoBlockDevice.entries n p) = n.
Proof.
  induction n as [|n IH]; intros p; [reflexivity|].
  cbn [NPDRMDemoBlockDevice.entries length]. rewrite IH. reflexivity.
Qed.

Lemma npdrm_new_numBlocks (u : Uninit) (file : FILE) :
  let d := NPDRMDemoBlockDevice.new u file in
  NPDRMDemoBlockDevice.numBlocks d
  = u32 (NPDRMDemoBlockDevice.lbaSize d + NPDRMDemoBlockDevice.blockLBAs d - 1)
    / u32 (NPDRMDemoBlockDevice.blockLBAs d) /\
  0 <= NPDRMDemoBlockDevice.lbaSize d < 2 ^ 32.
Proof.
  unfold NPDRMDemoBlockDevice.new.
  destruct (fread 4 _) as [got f2]. destruct (fread 256 _) as [hgot f4].
  destruct (fread _ _) as [tgot f6].
  cbn [NPDRMDemoBlockDevice.numBlocks NPDRMDemoBlockDevice.lbaSize
         NPDRMDemoBlockDevice.blockLBAs].
  split; [reflexivity|]. apply Z.mod_pos_bound. lia.
Qed.

Lemma npdrm_new_shape_facts (u : Uninit) (file : FILE) :
  let d := NPDRMDemoBlockDevice.new u file in
  length (NPDRMDemoBlockDevice.table d)
  = Z.to_nat (NPDRMDemoBlockDevice.numBlocks d) /\
  length (NPDRMDemoBlockDevice.blockBuf d)
  = Z.to_nat (size_t (NPDRMDemoBlockDevice.blockSize d)) /\
  length (NPDRMDemoBlockDevice.tempBuf d)
  = Z.to_nat (size_t (NPDRMDemoBlockDevice.blockSize d)) /\
  NPDRMDemoBlockDevice.blockSize d = s32 (NPDRMDemoBlockDevice.blockLBAs d * 2048) /\
  length (NPDRMDemoBlockDevice.vkey d) = 16%nat /\
  length (NPDRMDemoBlockDevice.hkey d) = 16%nat /\
  NPDRMDemoBlockDevice.currentBlock d = -1.
Proof.
  unfold NPDRMDemoBlockDevice.new.
  destruct (fread 4 _) as [got f2]. destruct (fread 256 _) as [hgot f4].
  destruct (fread _ _) as [tgot f6].
  cbn [NPDRMDemoBlockDevice.table NPDRMDemoBlockDevice.numBlocks
         NPDRMDemoBlockDevice.blockBuf NPDRMDemoBlockDevice.tempBuf
         NPDRMDemoBlockDevice.blockSize NPDRMDemoBlockDevice.blockLBAs
         NPDRMDemoBlockDevice.vkey NPDRMDemoBlockDevice.hkey
         NPDRMDemoBlockDevice.currentBlock].
  unfold alloc.
  rewrite entries_length, !resize_length, slice_length.
  repeat split.
Qed.

(** X22.  The table covers the image.  On an NPDRM device just built, with
    units of at least one block and [lbaSize + blockLBAs] within 32 bits,
    the unit of every block below [lbaSize] is below [numBlocks], so its
    table entry exists. *)
Theorem npdrm_new_units_in_table (u : Uninit) (file : FILE) (b : Z) :
  let d := NPDRMDemoBlockDevice.new u file in
  0 < NPDRMDemoBlockDevice.blockLBAs d ->
  NPDRMDemoBlockDevice.lbaSize d + NPDRMDemoBlockDevice.blockLBAs d <= 2 ^ 32 ->
  0 <= b < NPDRMDemoBlockDevice.lbaSize d ->
  0 <= Z.quot b (NPDRMDemoBlockDevice.blockLBAs d)
  < NPDRMDemoBlockDevice.numBlocks d /\
  (Z.to_nat (Z.quot b (NPDRMDemoBlockDevice.blockLBAs d))
   < length (NPDRMDemoBlockDevice.table d))%nat.
Proof.
  intros d HL Hsum Hb.
  destruct (npdrm_new_numBlocks u file) as [Hnb Hlba]. fold d in Hnb, Hlba.
  destruct (npdrm_new_shape_facts u file) as (Hlen & _). fold d in Hlen.
  set (L := NPDRMDemoBlockDevice.blockLBAs d) in *.
  set (n := NPDRMDemoBlockDevice.lbaSize d) in *.
  rewrite (u32_small (n + L - 1)), (u32_small L) in Hnb by lia.
  rewrite Z.quot_div_nonneg by lia.
  assert (Hq0 : 0 <= b / L) by (apply Z.div_pos; lia).
  assert (Hlt : b / L < (n + L - 1) / L).
  { pose proof (Z.mul_div_le b L HL).
    assert (b / L + 1 <= (n + L - 1) / L); [|lia].
    apply Z.div_le_lower_bound; [lia|]. nia. }
  rewrite Hlen, Hnb. split; lia.
Qed.

End ConstructorFacts.

(** ** Instances of the further properties on the sample images *)

(** X1 on the two-block resource, read at block 2, its end. *)
Lemma plain_read_short_or_past_end_witness :
  let d := FileBlockDevice.new (mkFILE Samples.plain_image 0) in
  fst (FileBlockDevice.ReadBlock d 2 Samples.ones) = (true, Samples.ones).
Proof.
  intros d.
  apply (plain_read_short_or_past_end d 2 Samples.ones).
  - lia.
  - vm_compute. discriminate.
Defined.

(** X2 on the two-byte resource, which starts like ["CISO"]. *)
Lemma constructBlockDevice_short_resource_witness :
  @constructBlockDevice Samples.host Samples.null_kirk
    Samples.junk "tiny.bin"%string
  = Some (IsFile (FileBlockDevice.new (mkFILE [x43; x49] 0))).
Proof.
  apply (@constructBlockDevice_short_resource Samples.host
           Samples.null_kirk Samples.junk "tiny.bin"%string [x43; x49]).
  - reflexivity.
  - vm_compute. lia.
Defined.

(** X3 on the two-block resource. *)
Lemma constructBlockDevice_plain_pass_through_witness :
  exists dev,
    @constructBlockDevice Samples.host Samples.null_kirk
      Samples.junk "game.iso"%string = Some dev /\
    @result_of Samples.stored_zlib Samples.null_kirk Samples.copy_lzrc dev 0
      Samples.zeros = true /\
    firstn BLOCK
      (@written_by Samples.stored_zlib Samples.null_kirk Samples.copy_lzrc dev 0
         Samples.zeros)
    = firstn BLOCK Samples.plain_image /\
    length (firstn BLOCK Samples.plain_image) = BLOCK.
Proof.
  apply (@constructBlockDevice_plain_pass_through Samples.host
           Samples.stored_zlib Samples.null_kirk Samples.copy_lzrc Samples.junk
           "game.iso"%string Samples.plain_image Samples.zeros).
  - reflexivity.
  - vm_compute. reflexivity.
  - vm_compute. reflexivity.
  - vm_compute. lia.
Defined.

(** X4 on the sample CISO image, whose frames have two blocks. *)
Lemma ciso_new_blockShift_witness :
  CISOFileBlockDevice.blockShift Samples.ciso_device = 1 /\
  Z.shiftl 2048 (CISOFileBlockDevice.blockShift Samples.ciso_device)
  = CISOFileBlockDevice.frameSize Samples.ciso_device.
Proof.
  apply (proj1 (ciso_new_blockShift Samples.junk (mkFILE Samples.ciso_image 0) 1
                  ltac:(lia))).
  vm_compute. reflexivity.
Defined.

(** X5 on the CISO image whose index is cut after its first entry. *)
Lemma ciso_new_index_witness :
  CISOFileBlockDevice.index
    (CISOFileBlockDevice.new Samples.junk (mkFILE Samples.ciso_image_cut 0))
  = repeat 0 4.
Proof.
  apply (proj2 (ciso_new_index Samples.junk Samples.ciso_image_cut)).
  - vm_compute. lia.
  - vm_compute. reflexivity.
Defined.


(** X8 on the CISO image with frames of one block, read at block 1. *)
Lemma ciso_one_block_frames_never_cache_witness :
  let d := Samples.ciso_device_2k in
  let r := @CISOFileBlockDevice.ReadBlock Samples.stored_zlib d 1 Samples.ones in
  fst r = (true, repeat x22 2048) /\
  CISOFileBlockDevice.zlibBufferFrame (snd r) = CISOFileBlockDevice.zlibBufferFrame d /\
  CISOFileBlockDevice.zlibBuffer (snd r) = CISOFileBlockDevice.zlibBuffer d.
Proof.
  intros d r. split; [vm_compute; reflexivity|].
  apply (@ciso_one_block_frames_never_cache Samples.stored_zlib d 1 Samples.ones).
  vm_compute. reflexivity.
Defined.

(** X9 on block 0 of the sample CISO image, with the decompressor that
    rejects every stream. *)
Lemma ciso_decompress_failure_witness :
  let d := Samples.ciso_device in
  let r := @CISOFileBlockDevice.ReadBlock Samples.rejecting_zlib d 0 Samples.ones in
  fst r = (false, repeat x00 BLOCK ++ skipn BLOCK Samples.ones) /\
  CISOFileBlockDevice.zlibBufferFrame (snd r) = CISOFileBlockDevice.zlibBufferFrame d /\
  CISOFileBlockDevice.inflateCalls (snd r) = S (CISOFileBlockDevice.inflateCalls d).
Proof.
  intros d r.
  apply (@ciso_decompress_failure Samples.rejecting_zlib d 0 Samples.ones).
  - reflexivity.
  - vm_compute. split; [discriminate | reflexivity].
  - lia.
  - vm_compute. discriminate.
  - vm_compute. reflexivity.
  - vm_compute. discriminate.
  - vm_compute. reflexivity.
  - vm_compute. reflexivity.
Defined.

(** X10 on block 3 of the sample CISO image, the second block of frame 1. *)
Lemma ciso_decompressed_block_witness :
  fst (@CISOFileBlockDevice.ReadBlock Samples.stored_zlib Samples.ciso_device 3
         Samples.ones)
  = (true,
     firstn BLOCK
       (skipn (Z.to_nat ((3 mod 2 ^ 1) * 2048))
          (@CISOFileBlockDevice.frame_data Samples.stored_zlib Samples.ciso_device 1))
     ++ skipn BLOCK Samples.ones).
Proof.
  apply (@ciso_decompressed_block Samples.stored_zlib Samples.ciso_device 3
           Samples.ones).
  - reflexivity.
  - vm_compute. split; discriminate.
  - vm_compute. reflexivity.
  - vm_compute. split; [discriminate | reflexivity].
  - lia.
  - vm_compute. reflexivity.
  - vm_compute. discriminate.
  - vm_compute. reflexivity.
Defined.

(** X11 on the sample CISO image: block 0 decompresses frame 0, block 1 is
    then answered from the cache. *)
Lemma ciso_cached_block_witness :
  let rd := @CISOFileBlockDevice.ReadBlock Samples.stored_zlib in
  let d1 := snd (rd Samples.ciso_device 0 Samples.ones) in
  let data :=
    firstn BLOCK
      (skipn (Z.to_nat ((1 mod 2 ^ 1) * 2048))
         (@CISOFileBlockDevice.frame_data Samples.stored_zlib Samples.ciso_device 0)) in
  data = repeat x11 2048 /\
  rd d1 1 Samples.zeros = (true, data ++ skipn BLOCK Samples.zeros, d1).
Proof.
  intros rd d1 data. split; [vm_compute; reflexivity|].
  apply (@ciso_cached_block Samples.stored_zlib Samples.ciso_device 0 1
           Samples.ones Samples.zeros).
  - reflexivity.
  - vm_compute. split; discriminate.
  - vm_compute. reflexivity.
  - vm_compute. split; [discriminate | reflexivity].
  - lia.
  - vm_compute. split; [discriminate | reflexivity].
  - lia.
  - vm_compute. reflexivity.
  - vm_compute. reflexivity.
  - vm_compute. discriminate.
  - vm_compute. reflexivity.
Defined.

(** X12 on a table of two entries. *)
Lemma descramble_loop_involutive_witness :
  NPDRMDemoBlockDevice.descramble_loop 2
    (NPDRMDemoBlockDevice.descramble_loop 2 Samples.two_entries)
  = Samples.two_entries.
Proof.
  apply (proj2 (descramble_loop_involutive 2 Samples.two_entries eq_refl)).
Defined.

(** X13 on the sample NPDRM image, whose units have two blocks: block 1 is
    fetched. *)
Lemma fresh_npdrm_first_read_witness :
  NPDRMDemoBlockDevice.cache_hit Samples.npdrm_device 1 = false.
Proof.
  unfold Samples.npdrm_device.
  rewrite (@fresh_npdrm_first_read Samples.null_kirk Samples.junk
             (mkFILE Samples.npdrm_image 0) 1 ltac:(lia)).
  vm_compute. reflexivity.
Defined.

(** X15 on the NPDRM image cut inside unit 1, read at block 2. *)
Lemma npdrm_short_unit_read_witness :
  fst (@NPDRMDemoBlockDevice.ReadBlock Samples.null_kirk Samples.copy_lzrc
         Samples.npdrm_device_cut 2 Samples.ones)
  = (false, Samples.ones).
Proof.
  rewrite (@npdrm_short_unit_read Samples.null_kirk Samples.copy_lzrc
             Samples.npdrm_device_cut 2 Samples.ones).
  - vm_compute. reflexivity.
  - vm_compute. reflexivity.
  - lia.
  - vm_compute. split; discriminate || reflexivity.
  - vm_compute. reflexivity.
  - vm_compute. reflexivity.
  - vm_compute. discriminate.
Defined.

(** X16 on the NPDRM image with a compressed unit 1, with the LZRC
    decompressor that gives up. *)
Lemma npdrm_lzrc_mismatch_witness :
  fst (@NPDRMDemoBlockDevice.ReadBlock Samples.null_kirk Samples.failing_lzrc
         Samples.npdrm_device_lz 2 Samples.ones)
  = (false, Samples.ones).
Proof.
  apply (@npdrm_lzrc_mismatch Samples.null_kirk Samples.failing_lzrc
           Samples.npdrm_device_lz 2 Samples.ones).
  - vm_compute. reflexivity.
  - lia.
  - vm_compute. reflexivity.
  - vm_compute. reflexivity.
  - vm_compute. reflexivity.
  - vm_compute. reflexivity.
  - vm_compute. discriminate.
Defined.

(** X17 on block 3 of the sample NPDRM image, the second block of the raw
    unit 1. *)
Lemma npdrm_fetched_block_witness :
  fst (@NPDRMDemoBlockDevice.ReadBlock Samples.null_kirk Samples.copy_lzrc
         Samples.npdrm_device 3 Samples.ones)
  = (true,
     firstn BLOCK
       (skipn (Z.to_nat (Z.rem 3 (NPDRMDemoBlockDevice.blockLBAs Samples.npdrm_device)
                         * 2048))
          (@NPDRMDemoBlockDevice.unit_data Samples.null_kirk Samples.copy_lzrc
             Samples.npdrm_device
             (Z.quot 3 (NPDRMDemoBlockDevice.blockLBAs Samples.npdrm_device))))
     ++ skipn BLOCK Samples.ones).
Proof.
  apply (@npdrm_fetched_block Samples.null_kirk Samples.copy_lzrc
           Samples.npdrm_device 3 Samples.ones).
  - vm_compute. reflexivity.
  - lia.
  - vm_compute. reflexivity.
  - vm_compute. reflexivity.
  - vm_compute. discriminate.
Defined.

(** X18 on the sample NPDRM image: block 3 fetches unit 1, block 2 is then
    answered from the unit buffer with the first half of the unit. *)
Lemma npdrm_cached_block_witness :
  let rd := @NPDRMDemoBlockDevice.ReadBlock Samples.null_kirk Samples.copy_lzrc in
  let d1 := snd (rd Samples.npdrm_device 3 Samples.ones) in
  fst (rd d1 2 Samples.zeros) = (true, repeat x5a 2048) /\
  snd (rd d1 2 Samples.zeros) = d1.
Proof.
  intros rd d1.
  destruct (@npdrm_cached_block Samples.null_kirk Samples.copy_lzrc
              Samples.npdrm_device 3 2 Samples.ones Samples.zeros) as [_ H].
  - vm_compute. reflexivity.
  - lia.
  - lia.
  - vm_compute. reflexivity.
  - vm_compute. reflexivity.
  - vm_compute. reflexivity.
  - vm_compute. discriminate.
  - cbv zeta in H. subst rd d1. cbv beta. rewrite H. cbn [fst snd].
    split; [|reflexivity]. vm_compute. reflexivity.
Defined.

(** X19 on the last block of the sample CISO image. *)
Lemma ciso_new_nothing_cached_witness :
  Z.shiftr 5 (CISOFileBlockDevice.blockShift Samples.ciso_device)
  < CISOFileBlockDevice.numFrames Samples.ciso_device /\
  CISOFileBlockDevice.zlibBufferFrame Samples.ciso_device
  <> Z.shiftr 5 (CISOFileBlockDevice.blockShift Samples.ciso_device).
Proof.
  apply (ciso_new_nothing_cached Samples.junk (mkFILE Samples.ciso_image 0) 1 5).
  - lia.
  - vm_compute. reflexivity.
  - vm_compute. reflexivity.
  - vm_compute. split; [discriminate | reflexivity].
Defined.

(** X20 on the sample CISO image, read at block -1. *)
Lemma ciso_read_block_negative_witness :
  @CISOFileBlockDevice.ReadBlock Samples.stored_zlib Samples.ciso_device (-1)
    Samples.ones
  = (false, repeat x00 BLOCK ++ skipn BLOCK Samples.ones, Samples.ciso_device).
Proof.
  apply (@ciso_read_block_negative Samples.stored_zlib Samples.ciso_device (-1)
           Samples.ones).
  - lia.
  - vm_compute. discriminate.
Defined.

(** X22 on the last block of the sample NPDRM image. *)
Lemma npdrm_new_units_in_table_witness :
  0 <= Z.quot 5 (NPDRMDemoBlockDevice.blockLBAs Samples.npdrm_device)
  < NPDRMDemoBlockDevice.numBlocks Samples.npdrm_device /\
  (Z.to_nat (Z.quot 5 (NPDRMDemoBlockDevice.blockLBAs Samples.npdrm_device))
   < length (NPDRMDemoBlockDevice.table Samples.npdrm_device))%nat.
Proof.
  apply (@npdrm_new_units_in_table Samples.null_kirk Samples.junk
           (mkFILE Samples.npdrm_image 0) 5).
  - vm_compute. reflexivity.
  - vm_compute. discriminate.
  - vm_compute. split; [discriminate | reflexivity].
Defined.

(** * The contracts of the two caches and of the output buffer *)

(** ** One decompression for each frame *)

Section FrameCacheContract.
Context {zlib : Zlib}.
Import CISOFileBlockDevice.

Lemma same_image_frame_data (d d' : t) (F : Z) :
  same_image d d' -> frame_data d' F = frame_data d F.
Proof.
  intros (Hc & Hi & Hs & _ & Hf & _).
  unfold frame_data, frame_input, index_at.
  rewrite Hc, Hi, Hs, Hf. reflexivity.
Qed.

Lemma same_image_offset (d d' : t) (b : Z) :
  same_image d d' -> compressedOffset d' b = compressedOffset d b.
Proof.
  intros (_ & _ & _ & Hb & _). unfold compressedOffset. rewrite Hb. reflexivity.
Qed.

(** A read that misses the cache on a compressed, well-formed frame larger
    than a block: [inflate] is called on the frame's bytes, its output goes
    to the start of [zlibBuffer], the frame becomes the cached one and the
    block is copied out of the buffer. *)
Lemma ReadBlock_decompress_value (d : t) (b : Z) (out : list byte) :
  inflateInit2 = Z_OK -> frameSize d <> GetBlockSize ->
  0 <= b < numBlocks d -> b < 2 ^ 31 -> 0 <= blockShift d ->
  Z.testbit (index_at d (Z.shiftr b (blockShift d))) 31 = false ->
  frame_decodes d (Z.shiftr b (blockShift d)) = true ->
  zlibBufferFrame d <> Z.shiftr b (blockShift d) ->
  let F := Z.shiftr b (blockShift d) in
  let zb := overwrite (zlibBuffer d) (frame_data d F) in
  fst (ReadBlock d b out)
  = (true, overwrite out (slice zb (compressedOffset d b) BLOCK)) /\
  zlibBuffer (snd (ReadBlock d b out)) = zb /\
  zlibBufferFrame (snd (ReadBlock d b out)) = F /\
  inflateCalls (snd (ReadBlock d b out)) = S (inflateCalls d) /\
  Z.of_nat (length (frame_data d F)) = frameSize d.
Proof.
  intros Hinit Hfs Hb Hbi Hs Hbit Hdec Hc F zb.
  unfold frame_decodes in Hdec. fold F in Hdec, Hbit, Hc.
  apply andb_prop in Hdec. destruct Hdec as [Hdec Hlen].
  apply andb_prop in Hdec. destruct Hdec as [Hpos Hst].
  apply Z.ltb_lt in Hpos. fold (framePos d F) in Hpos.
  fold (frame_data d F) in Hlen.
  destruct (ReadBlock_miss_value d b out Hinit Hb Hbi Hs Hbit Hc Hpos)
    as (Hv & Hzb & Hfr & Hcnt).
  cbv zeta in Hv, Hzb, Hfr. fold F in Hv, Hzb, Hfr.
  rewrite Hst, Hlen in Hv, Hfr. cbn [andb] in Hv, Hfr.
  destruct (Z.eqb_spec (frameSize d) GetBlockSize) as [Ed|Ed]; [contradiction|].
  cbn [negb] in Hfr. apply Z.eqb_eq in Hlen.
  repeat split; assumption.
Qed.

(** C7.  On a CISO device whose frames are larger than a block, with the
    decompressor initialising, take a compressed, well-formed frame [F] that
    is not in the cache.  The first read of a block of [F] calls [inflate]
    once, on the bytes of the frame; what [inflate] produced, [frameSize]
    bytes, is then at the start of [zlibBuffer], [F] is the cached frame,
    and the block handed out is copied from that buffer.  Every later read of
    a block of [F] copies its block from the same buffer and leaves the
    device, its call count included, as it is; so reading all the blocks of
    [F] in sequence calls [inflate] exactly once.  A read of a block [b] of
    another compressed, well-formed frame after them calls [inflate] exactly
    once more, on the bytes of that frame, whose data replace the cached
    ones. *)
Theorem ciso_frame_decompressed_once (d : t) (F b : Z) (out : list byte) :
  inflateInit2 = Z_OK ->
  GetBlockSize < frameSize d -> 0 <= blockShift d ->
  0 <= F -> (F + 1) * 2 ^ blockShift d <= numBlocks d ->
  (F + 1) * 2 ^ blockShift d <= 2 ^ 31 ->
  0 <= b < numBlocks d -> b < 2 ^ 31 -> Z.shiftr b (blockShift d) <> F ->
  Z.testbit (index_at d F) 31 = false ->
  Z.testbit (index_at d (Z.shiftr b (blockShift d))) 31 = false ->
  frame_decodes d F = true ->
  frame_decodes d (Z.shiftr b (blockShift d)) = true ->
  zlibBufferFrame d <> F ->
  let first := F * 2 ^ blockShift d in
  let G := Z.shiftr b (blockShift d) in
  let zb1 := overwrite (zlibBuffer d) (frame_data d F) in
  let zb2 := overwrite zb1 (frame_data d G) in
  let d1 := snd (ReadBlock d first out) in
  let r := read_blocks d (frame_blocks d F) out in
  let r2 := ReadBlock (snd r) b (fst r) in
  (fst (ReadBlock d first out)
   = (true, overwrite out (slice zb1 (compressedOffset d first) BLOCK)) /\
   Z.of_nat (length (frame_data d F)) = frameSize d /\
   zlibBuffer d1 = zb1 /\
   zlibBufferFrame d1 = F /\
   inflateCalls d1 = S (inflateCalls d)) /\
  (forall k out', 0 <= k < 2 ^ blockShift d ->
     ReadBlock d1 (first + k) out'
     = (true,
        overwrite out' (slice zb1 (compressedOffset d (first + k)) BLOCK),
        d1)) /\
  (snd r = d1 /\ inflateCalls (snd r) = S (inflateCalls d)) /\
  (fst r2
   = (true, overwrite (fst r) (slice zb2 (compressedOffset d b) BLOCK)) /\
   Z.of_nat (length (frame_data d G)) = frameSize d /\
   zlibBuffer (snd r2) = zb2 /\
   zlibBufferFrame (snd r2) = G /\
   inflateCalls (snd r2) = S (S (inflateCalls d))).
Proof.
  intros Hinit Hfs Hs HF Hlast Hint Hb Hbi HG HbitF HbitG HdecF HdecG Hc
         first G zb1 zb2 d1 r r2.
  pose proof (Z.pow_pos_nonneg 2 (blockShift d) ltac:(lia) Hs) as Hpow.
  assert (Hsh0 : Z.shiftr first (blockShift d) = F).
  { unfold first. rewrite <- (Z.add_0_r (F * 2 ^ blockShift d)).
    apply frame_block_shift; lia. }
  assert (Hfirst : 0 <= first < numBlocks d) by (unfold first; nia).
  assert (Hfi : first < 2 ^ 31) by (unfold first; nia).
  destruct (ReadBlock_decompress_value d first out Hinit ltac:(lia) Hfirst Hfi Hs)
    as (Hv1 & Hzb1 & Hfr1 & Hcnt1 & Hlen1);
    [rewrite Hsh0; assumption .. |].
  cbv zeta in Hv1, Hzb1, Hfr1, Hlen1.
  rewrite Hsh0 in Hv1, Hzb1, Hfr1, Hlen1.
  fold zb1 in Hv1, Hzb1. fold d1 in Hzb1, Hfr1, Hcnt1.
  destruct (ReadBlock_same_image d first out) as [Himg1 _]. fold d1 in Himg1.
  pose proof Himg1 as (Hc1 & Hi1 & His1 & Hbs1 & Hfs1 & Hnb1).
  assert (Hin : forall k, 0 <= k < 2 ^ blockShift d ->
            (0 <= first + k < numBlocks d1 /\ first + k < 2 ^ 31) /\
            Z.shiftr (first + k) (blockShift d1) = F).
  { intros k Hk. rewrite Hnb1, Hbs1. split; [unfold first; nia|].
    unfold first. apply frame_block_shift; lia. }
  assert (Hbit1 : Z.testbit (index_at d1 F) 31 = false).
  { unfold index_at. rewrite Hi1. exact HbitF. }
  assert (Hhit : forall k out', 0 <= k < 2 ^ blockShift d ->
            ReadBlock d1 (first + k) out'
            = (true,
               overwrite out' (slice zb1 (compressedOffset d (first + k)) BLOCK),
               d1)).
  { intros k out' Hk. destruct (Hin k Hk) as [[Hr Hri] Hsh].
    rewrite (ReadBlock_cached d1 (first + k) out' Hr Hri).
    - rewrite Hzb1, (same_image_offset d d1) by exact Himg1. reflexivity.
    - lia.
    - rewrite Hsh. exact Hbit1.
    - rewrite Hsh. exact Hfr1. }
  assert (Hr : snd r = d1).
  { unfold r, frame_blocks.
    destruct (Z.to_nat (2 ^ blockShift d)) as [|m] eqn:Em; [lia|].
    cbn [seq map read_blocks]. change (Z.of_nat 0) with 0.
    rewrite Z.add_0_r. fold first.
    destruct (ReadBlock d first out) as [[ok out1] dd] eqn:E1.
    cbn [snd] in d1. change dd with d1.
    apply (read_blocks_cached d1 F); try lia; try assumption.
    apply Forall_forall. intros x Hx.
    apply in_map_iff in Hx. destruct Hx as (k & <- & Hk).
    apply in_seq in Hk. fold first. apply Hin. lia. }
  split; [repeat split; assumption|].
  split; [exact Hhit|].
  split; [split; [exact Hr | rewrite Hr; exact Hcnt1]|].
  unfold r2. rewrite Hr.
  destruct (ReadBlock_decompress_value d1 b (fst r) Hinit)
    as (Hv2 & Hzb2 & Hfr2 & Hcnt2 & Hlen2); try lia.
  - rewrite Hbs1. unfold index_at. rewrite Hi1. exact HbitG.
  - rewrite Hbs1. rewrite (same_image_decodes d d1); [exact HdecG | exact Himg1].
  - rewrite Hbs1, Hfr1. intros E. apply HG. symmetry. exact E.
  - cbv zeta in Hv2, Hzb2, Hfr2, Hlen2.
    rewrite Hbs1 in Hv2, Hzb2, Hfr2, Hlen2. fold G in Hv2, Hzb2, Hfr2, Hlen2.
    rewrite (same_image_frame_data d d1 G Himg1) in Hv2, Hzb2, Hlen2.
    rewrite (same_image_offset d d1 b Himg1) in Hv2.
    rewrite Hzb1 in Hv2, Hzb2. fold zb2 in Hv2, Hzb2.
    rewrite Hfs1 in Hlen2. rewrite Hcnt1 in Hcnt2.
    repeat split; assumption.
Qed.

End FrameCacheContract.

(** ** What a read leaves in the output buffer, device by device *)

Section OutputContract.
Context {zlib : Zlib} {kirk : Kirk} {lzrc : Lzrc}.

(** The paths of the NPDRM read: the copy out of the cached unit, the copy
    after a fetch that went through, and the returns that do not write. *)
Lemma npdrm_ReadBlock_paths (d : NPDRMDemoBlockDevice.t) (n : Z) (out : list byte) :
  let unit := s32 (Z.quot n (NPDRMDemoBlockDevice.blockLBAs d)) in
  (NPDRMDemoBlockDevice.cache_hit d n = true ->
   fst (NPDRMDemoBlockDevice.ReadBlock d n out)
   = (true,
      slice (NPDRMDemoBlockDevice.blockBuf d)
            (s32 (n - NPDRMDemoBlockDevice.currentBlock d) * 2048) BLOCK
      ++ skipn BLOCK out)) /\
  (NPDRMDemoBlockDevice.cache_hit d n = false ->
   NPDRMDemoBlockDevice.fetch_ok d unit = true ->
   fst (NPDRMDemoBlockDevice.ReadBlock d n out)
   = (true,
      slice (overwrite (NPDRMDemoBlockDevice.blockBuf d)
                       (NPDRMDemoBlockDevice.unit_data d unit))
            (Z.rem n (NPDRMDemoBlockDevice.blockLBAs d) * 2048) BLOCK
      ++ skipn BLOCK out)) /\
  (NPDRMDemoBlockDevice.cache_hit d n = false ->
   NPDRMDemoBlockDevice.fetch_ok d unit = false ->
   snd (fst (NPDRMDemoBlockDevice.ReadBlock d n out)) = out).
Proof.
  intros unit. split; [|split].
  - intros Hhit. rewrite (ReadBlock_hit d n out Hhit). cbn [fst].
    rewrite overwrite_length_block by apply slice_length. reflexivity.
  - intros Hmiss Hok.
    destruct (ReadBlock_fetch_value d n out Hmiss) as [Hv _].
    cbv zeta in Hv. fold unit in Hv. rewrite Hv.
    unfold NPDRMDemoBlockDevice.fetch_ok in Hok.
    apply andb_prop in Hok. destruct Hok as [Hok H3].
    apply andb_prop in Hok. destruct Hok as [H1 H2].
    rewrite H1, H2. cbn [negb].
    rewrite overwrite_length_block by apply slice_length.
    destruct (NPDRMDemoBlockDevice.size (NPDRMDemoBlockDevice.table_at d unit)
              <? NPDRMDemoBlockDevice.blockSize d);
      [rewrite H3|]; reflexivity.
  - intros Hmiss Hko.
    destruct (ReadBlock_fetch_value d n out Hmiss) as [Hv _].
    cbv zeta in Hv. fold unit in Hv. rewrite Hv.
    unfold NPDRMDemoBlockDevice.fetch_ok in Hko.
    destruct (NPDRMDemoBlockDevice.unk_1c (NPDRMDemoBlockDevice.table_at d unit)
              =? 0); cbn [negb andb] in Hko |- *; [|reflexivity].
    destruct (Z.of_nat (length (NPDRMDemoBlockDevice.unit_read d unit))
              =? size_t (NPDRMDemoBlockDevice.size
                           (NPDRMDemoBlockDevice.table_at d unit)));
      cbn [negb andb] in Hko |- *; [|reflexivity].
    destruct (NPDRMDemoBlockDevice.size (NPDRMDemoBlockDevice.table_at d unit)
              <? NPDRMDemoBlockDevice.blockSize d); [|discriminate Hko].
    rewrite Hko. reflexivity.
Qed.

(** C1, as the code has it.  The plain device always reports success, and
    writes the whole block when the resource holds 2048 bytes at the
    block's offset.  The CISO device writes the whole block on every return
    but the one after a failed [inflateInit2].  The NPDRM device writes the
    whole block, and reports success, on its two copying paths: when the
    block is inside the unit that [currentBlock] names (2048 bytes of
    [blockBuf]), and when it is not and the fetch of its unit goes through
    (2048 bytes of the unit's data).  On every other NPDRM return, the
    sentinel entry, the short unit read and the LZRC mismatch, with success
    or with failure, the output is left untouched. *)
Theorem read_block_output_contract :
  (forall (d : FileBlockDevice.t) (n : Z),
      (forall out, result_of (IsFile d) n out = true) /\
      (0 <= n < 2 ^ 31 ->
       (n + 1) * 2048 <= Z.of_nat (length (contents (FileBlockDevice.f d))) ->
       fully_written (written_by (IsFile d) n))) /\
  (forall (d : CISOFileBlockDevice.t) (n : Z),
      CISOFileBlockDevice.reaches_inflateInit2 d n = false \/ inflateInit2 = Z_OK ->
      fully_written (written_by (IsCISO d) n)) /\
  (forall (d : NPDRMDemoBlockDevice.t) (n : Z),
      let unit := s32 (Z.quot n (NPDRMDemoBlockDevice.blockLBAs d)) in
      (NPDRMDemoBlockDevice.cache_hit d n = true ->
       fully_written (written_by (IsNPDRM d) n) /\
       forall out,
         result_of (IsNPDRM d) n out = true /\
         written_by (IsNPDRM d) n out
         = slice (NPDRMDemoBlockDevice.blockBuf d)
                 (s32 (n - NPDRMDemoBlockDevice.currentBlock d) * 2048) BLOCK
           ++ skipn BLOCK out) /\
      (NPDRMDemoBlockDevice.cache_hit d n = false ->
       NPDRMDemoBlockDevice.fetch_ok d unit = true ->
       fully_written (written_by (IsNPDRM d) n) /\
       forall out,
         result_of (IsNPDRM d) n out = true /\
         written_by (IsNPDRM d) n out
         = slice (overwrite (NPDRMDemoBlockDevice.blockBuf d)
                            (NPDRMDemoBlockDevice.unit_data d unit))
                 (Z.rem n (NPDRMDemoBlockDevice.blockLBAs d) * 2048) BLOCK
           ++ skipn BLOCK out) /\
      (NPDRMDemoBlockDevice.cache_hit d n = false ->
       NPDRMDemoBlockDevice.fetch_ok d unit = false ->
       untouched (written_by (IsNPDRM d) n))).
Proof.
  split; [|split].
  - intros d n. split.
    + intros out. rewrite (proj2 (written_by_File d n out)).
      unfold FileBlockDevice.ReadBlock.
      destruct (fread 2048 _) as [got f2]. reflexivity.
    + intros Hn Hlen.
      destruct (FileBlockDeviceFacts.ReadBlock_whole d n [] Hn Hlen) as [Hd _].
      eexists. split; [exact Hd|]. intros out.
      rewrite (proj1 (written_by_File d n out)).
      destruct (FileBlockDeviceFacts.ReadBlock_whole d n out Hn Hlen) as [_ Hr].
      rewrite Hr. reflexivity.
  - intros d n H.
    apply (fully_written_ext _ _ (fun out => proj1 (written_by_CISO d n out))).
    apply ReadBlock_writes. exact H.
  - intros d n unit. split; [|split].
    + intros Hhit.
      assert (Hall : forall out,
                result_of (IsNPDRM d) n out = true /\
                written_by (IsNPDRM d) n out
                = slice (NPDRMDemoBlockDevice.blockBuf d)
                        (s32 (n - NPDRMDemoBlockDevice.currentBlock d) * 2048) BLOCK
                  ++ skipn BLOCK out).
      { intros out. destruct (written_by_NPDRM d n out) as [-> ->].
        destruct (npdrm_ReadBlock_paths d n out) as (H & _).
        rewrite (H Hhit). split; reflexivity. }
      split; [|exact Hall].
      eexists. split; [apply slice_length|]. intros out. apply (Hall out).
    + intros Hmiss Hok.
      assert (Hall : forall out,
                result_of (IsNPDRM d) n out = true /\
                written_by (IsNPDRM d) n out
                = slice (overwrite (NPDRMDemoBlockDevice.blockBuf d)
                                   (NPDRMDemoBlockDevice.unit_data d unit))
                        (Z.rem n (NPDRMDemoBlockDevice.blockLBAs d) * 2048) BLOCK
                  ++ skipn BLOCK out).
      { intros out. destruct (written_by_NPDRM d n out) as [-> ->].
        destruct (npdrm_ReadBlock_paths d n out) as (_ & H & _).
        fold unit in H. rewrite (H Hmiss Hok). split; reflexivity. }
      split; [|exact Hall].
      eexists. split; [apply slice_length|]. intros out. apply (Hall out).
    + intros Hmiss Hko out.
      rewrite (proj1 (written_by_NPDRM d n out)).
      destruct (npdrm_ReadBlock_paths d n out) as (_ & _ & H).
      apply H; assumption.
Qed.

End OutputContract.

(** ** A sentinel unit behind the cache guard *)

Section SentinelBehindGuard.
Context {kirk : Kirk} {lzrc : Lzrc}.
Import NPDRMDemoBlockDevice.

(** What the sentinel return leaves of the device: [currentBlock] names the
    unit, nothing was loaded. *)
Lemma ReadBlock_sentinel_state (d : t) (b : Z) (out : list byte) :
  cache_hit d b = false ->
  unk_1c (table_at d (s32 (Z.quot b (blockLBAs d)))) <> 0 ->
  blockBuf (snd (ReadBlock d b out)) = blockBuf d /\
  f (snd (ReadBlock d b out)) = f d.
Proof.
  unfold cache_hit, ReadBlock. cbv zeta. intros -> Hunk.
  destruct (Z.eqb_spec (unk_1c (table_at d (s32 (Z.quot b (blockLBAs d))))) 0)
    as [E|E]; [contradiction|].
  cbn [negb].
  destruct (u32 (s32 (Z.quot b (blockLBAs d))) =? u32 (numBlocks d - 1));
    split; reflexivity.
Qed.

(** C5, at the inputs where the code fails it.  A read of block [b] that
    reaches the sentinel test behaves as the claim says, but it has already
    written [currentBlock]: a read of any block [b'] of the same sentinel
    unit after it is taken by the cache guard and never reaches the test.
    It reports success, for a unit that is not the last one too, and
    overwrites the output with 2048 bytes of [blockBuf], which holds nothing
    of this unit, for the last unit too; the table is the same and nothing
    is read from the resource. *)
Theorem npdrm_sentinel_unit_answered_from_cache
  (d : t) (b b' : Z) (out out' : list byte) :
  0 < blockLBAs d -> 0 <= b < 2 ^ 31 -> 0 <= b' < 2 ^ 31 ->
  0 <= numBlocks d < 2 ^ 32 ->
  Z.quot b' (blockLBAs d) = Z.quot b (blockLBAs d) ->
  cache_hit d b = false ->
  unk_1c (table_at d (Z.quot b (blockLBAs d))) <> 0 ->
  let unit := Z.quot b (blockLBAs d) in
  let d1 := snd (ReadBlock d b out) in
  fst (ReadBlock d b out) = (unit =? numBlocks d - 1, out) /\
  unk_1c (table_at d1 (Z.quot b' (blockLBAs d1))) <> 0 /\
  ReadBlock d1 b' out'
  = (true,
     slice (blockBuf d) ((b' - unit * blockLBAs d) * 2048) BLOCK
     ++ skipn BLOCK out',
     d1) /\
  f d1 = f d.
Proof.
  intros HL Hb Hb' Hnb Hq Hmiss Hunk unit d1.
  destruct (last_unit_test d b HL Hb Hnb) as [Hs Hlast].
  assert (Hunk' : unk_1c (table_at d (s32 (Z.quot b (blockLBAs d)))) <> 0)
    by (rewrite Hs; exact Hunk).
  pose proof (ReadBlock_sentinel d b out Hmiss Hunk') as Hv.
  rewrite Hs, Hlast in Hv.
  destruct (ReadBlock_sentinel_state d b out Hmiss Hunk') as [Hbuf Hf].
  destruct (ReadBlock_miss_state d b out Hmiss) as (Hc & Hl & _ & Ht).
  cbv zeta in Hc, Hl, Ht. fold d1 in Hbuf, Hf, Hc, Hl, Ht.
  destruct (unit_of_block (blockLBAs d) b HL Hb) as (Hcur & Hq0 & _).
  rewrite Hcur in Hc.
  destruct (unit_of_block (blockLBAs d) b' HL Hb') as (_ & _ & Hr').
  rewrite Hq in Hr'.
  split; [exact Hv|]. split.
  { unfold table_at. rewrite Ht, Hl, Hq. exact Hunk. }
  split; [|exact Hf].
  rewrite (ReadBlock_hit d1 b' out')
    by (apply same_unit_hits; assumption).
  rewrite Hc, Hbuf. fold unit.
  rewrite (s32_small (b' - unit * blockLBAs d)) by (unfold unit; nia).
  rewrite overwrite_length_block by apply slice_length. reflexivity.
Qed.

End SentinelBehindGuard.

(** ** Instances of the contracts on the sample images *)

(** C7 on the sample CISO image: the two blocks of frame 0, then block 2 of
    frame 1. *)
Lemma ciso_frame_decompressed_once_witness :
  let d := Samples.ciso_device in
  let rd := @CISOFileBlockDevice.ReadBlock Samples.stored_zlib in
  let r := @CISOFileBlockDevice.read_blocks Samples.stored_zlib d
             (CISOFileBlockDevice.frame_blocks d 0) Samples.ones in
  CISOFileBlockDevice.frame_blocks d 0 = [0; 1] /\
  CISOFileBlockDevice.inflateCalls d = 0%nat /\
  fst (rd d 0 Samples.ones) = (true, repeat x11 2048) /\
  firstn 4096 (CISOFileBlockDevice.zlibBuffer (snd (rd d 0 Samples.ones)))
  = repeat x11 4096 /\
  rd (snd (rd d 0 Samples.ones)) 1 Samples.zeros
  = (true, repeat x11 2048, snd (rd d 0 Samples.ones)) /\
  CISOFileBlockDevice.inflateCalls (snd r) = 1%nat /\
  fst (rd (snd r) 2 (fst r)) = (true, repeat x22 2048) /\
  CISOFileBlockDevice.inflateCalls (snd (rd (snd r) 2 (fst r))) = 2%nat.
Proof.
  intros d rd r.
  split; [vm_compute; reflexivity|]. split; [vm_compute; reflexivity|].
  assert (H := @ciso_frame_decompressed_once Samples.stored_zlib d 0 2 Samples.ones).
  cbv zeta in H. fold r in H.
  change (0 * 2 ^ CISOFileBlockDevice.blockShift d) with 0 in H.
  destruct H as ((Hv1 & _ & Hzb1 & _ & _) & Hhit & (_ & Hcnt) & (Hv2 & _ & _ & _ & Hcnt2)).
  - reflexivity.
  - vm_compute. reflexivity.
  - vm_compute. discriminate.
  - lia.
  - vm_compute. discriminate.
  - vm_compute. discriminate.
  - split; [lia | vm_compute; reflexivity].
  - lia.
  - vm_compute. discriminate.
  - vm_compute. reflexivity.
  - vm_compute. reflexivity.
  - vm_compute. reflexivity.
  - vm_compute. reflexivity.
  - vm_compute. discriminate.
  - subst rd. cbv beta.
    split; [rewrite Hv1; vm_compute; reflexivity|].
    split; [rewrite Hzb1; vm_compute; reflexivity|].
    split.
    { specialize (Hhit 1 Samples.zeros).
      change (0 + 1) with 1 in Hhit.
      rewrite Hhit by (vm_compute; split; [discriminate | reflexivity]).
      f_equal; f_equal; vm_compute; reflexivity. }
    split; [exact Hcnt|].
    split; [rewrite Hv2; vm_compute; reflexivity | exact Hcnt2].
Defined.

(** C1 as the code has it, on the three sample images: a whole block of
    the plain image, a decompressed block of the CISO image, and on the
    NPDRM image block 3 after the fetch of the raw unit 1, block 2 out of the
    unit then cached, and block 1 of the sentinel unit 0. *)
Lemma read_block_output_contract_witness :
  let wr := @written_by Samples.stored_zlib Samples.null_kirk Samples.copy_lzrc in
  let res := @result_of Samples.stored_zlib Samples.null_kirk Samples.copy_lzrc in
  let d1 := snd (@NPDRMDemoBlockDevice.ReadBlock Samples.null_kirk
                   Samples.copy_lzrc Samples.npdrm_device 3 Samples.ones) in
  fully_written (wr (IsFile (FileBlockDevice.new (mkFILE Samples.plain_image 0))) 1) /\
  fully_written (wr (IsCISO Samples.ciso_device) 0) /\
  (res (IsNPDRM Samples.npdrm_device) 3 Samples.ones = true /\
   wr (IsNPDRM Samples.npdrm_device) 3 Samples.ones = repeat x5b 2048) /\
  (res (IsNPDRM d1) 2 Samples.ones = true /\
   wr (IsNPDRM d1) 2 Samples.ones = repeat x5a 2048) /\
  wr (IsNPDRM Samples.npdrm_device) 1 Samples.ones = Samples.ones.
Proof.
  intros wr res d1.
  destruct (@read_block_output_contract Samples.stored_zlib Samples.null_kirk
              Samples.copy_lzrc) as (HP & HC & HN).
  split; [|split; [|split; [|split]]].
  - apply (proj2 (HP _ 1)).
    + lia.
    + vm_compute. discriminate.
  - apply HC. right. reflexivity.
  - destruct (HN Samples.npdrm_device 3) as (_ & Hfetch & _).
    destruct Hfetch as [_ Hall].
    + vm_compute. reflexivity.
    + vm_compute. reflexivity.
    + destruct (Hall Samples.ones) as [Hres Hwr].
      split; [exact Hres|]. unfold wr. rewrite Hwr. vm_compute. reflexivity.
  - destruct (HN d1 2) as (Hhit & _).
    destruct Hhit as [_ Hall].
    + vm_compute. reflexivity.
    + destruct (Hall Samples.ones) as [Hres Hwr].
      split; [exact Hres|]. unfold wr. rewrite Hwr. vm_compute. reflexivity.
  - destruct (HN Samples.npdrm_device 1) as (_ & _ & Hun).
    apply Hun.
    + vm_compute. reflexivity.
    + vm_compute. reflexivity.
Defined.

(** C1 as the spec has it fails.  On the sample NPDRM image, just built,
    the read of block 1, of the sentinel unit 0, reports failure and hands
    back whatever the output held; on the two-block plain image the read of
    block 2, at the end of the resource, reports success and does the same.
    What either leaves is not a block it wrote. *)
Lemma read_block_output_counterexample :
  let rd := @BlockDevice_ReadBlock Samples.stored_zlib Samples.null_kirk
              Samples.copy_lzrc in
  let wr := @written_by Samples.stored_zlib Samples.null_kirk Samples.copy_lzrc in
  let npdrm := IsNPDRM Samples.npdrm_device in
  let plain := IsFile (FileBlockDevice.new (mkFILE Samples.plain_image 0)) in
  (fst (rd npdrm 1 Samples.zeros) = (false, Samples.zeros) /\
   fst (rd npdrm 1 Samples.ones) = (false, Samples.ones) /\
   ~ fully_written (wr npdrm 1)) /\
  (fst (rd plain 2 Samples.zeros) = (true, Samples.zeros) /\
   fst (rd plain 2 Samples.ones) = (true, Samples.ones) /\
   ~ fully_written (wr plain 2)).
Proof.
  intros rd wr npdrm plain.
  assert (Hneq : forall (dev : BlockDevice) (n : Z) (b0 b1 : bool),
             fst (rd dev n Samples.zeros) = (b0, Samples.zeros) ->
             fst (rd dev n Samples.ones) = (b1, Samples.ones) ->
             ~ fully_written (wr dev n)).
  { intros dev n b0 b1 H0 H1 (data & _ & H).
    pose proof (H Samples.zeros) as Hz. pose proof (H Samples.ones) as Ho.
    unfold wr, written_by in Hz, Ho. fold (rd dev n Samples.zeros) in Hz.
    fold (rd dev n Samples.ones) in Ho.
    rewrite H0 in Hz. rewrite H1 in Ho. cbn [snd] in Hz, Ho.
    change (skipn BLOCK Samples.zeros) with (@nil byte) in Hz.
    change (skipn BLOCK Samples.ones) with (@nil byte) in Ho.
    rewrite app_nil_r in Hz, Ho. rewrite <- Hz in Ho.
    vm_compute in Ho. discriminate Ho. }
  assert (N0 : fst (rd npdrm 1 Samples.zeros) = (false, Samples.zeros))
    by (vm_compute; reflexivity).
  assert (N1 : fst (rd npdrm 1 Samples.ones) = (false, Samples.ones))
    by (vm_compute; reflexivity).
  assert (P0 : fst (rd plain 2 Samples.zeros) = (true, Samples.zeros))
    by (vm_compute; reflexivity).
  assert (P1 : fst (rd plain 2 Samples.ones) = (true, Samples.ones))
    by (vm_compute; reflexivity).
  split; (split; [|split]); try assumption.
  - exact (Hneq npdrm 1 false false N0 N1).
  - exact (Hneq plain 2 true true P0 P1).
Qed.

(** C5 on the sample NPDRM image: block 1 of the sentinel unit 0, which is
    not the last, fails at the sentinel test; block 0 of the same unit is
    then answered with success and the [0xcc] bytes of the never loaded unit
    buffer. *)
Lemma npdrm_sentinel_unit_answered_from_cache_witness :
  let rd := @NPDRMDemoBlockDevice.ReadBlock Samples.null_kirk Samples.copy_lzrc in
  let d1 := snd (rd Samples.npdrm_device 1 Samples.zeros) in
  fst (rd Samples.npdrm_device 1 Samples.zeros) = (false, Samples.zeros) /\
  NPDRMDemoBlockDevice.unk_1c
    (NPDRMDemoBlockDevice.table_at d1
       (Z.quot 0 (NPDRMDemoBlockDevice.blockLBAs d1))) <> 0 /\
  Z.quot 0 (NPDRMDemoBlockDevice.blockLBAs d1)
  <> NPDRMDemoBlockDevice.numBlocks d1 - 1 /\
  rd d1 0 Samples.zeros = (true, repeat xcc 2048, d1).
Proof.
  intros rd d1.
  destruct (@npdrm_sentinel_unit_answered_from_cache Samples.null_kirk
              Samples.copy_lzrc Samples.npdrm_device 1 0 Samples.zeros
              Samples.zeros) as (Hv & Hunk & Hrd & _).
  - vm_compute. reflexivity.
  - lia.
  - lia.
  - vm_compute. split; discriminate || reflexivity.
  - vm_compute. reflexivity.
  - vm_compute. reflexivity.
  - vm_compute. discriminate.
  - subst rd d1. cbv beta.
    split; [rewrite Hv; vm_compute; reflexivity|].
    split; [exact Hunk|].
    split; [vm_compute; discriminate|].
    rewrite Hrd. f_equal; f_equal; vm_compute; reflexivity.
Defined.
